(** * B2B inventory management: the product-creation transaction and the
      low-stock / reorder queries

    A shallow embedding of [improved_endpoint.py] ([add_product]) and of
    [api_implementation.py] ([get_low_stock_alerts],
    [get_reorder_suggestions]).

    Conventions of the embedding.
    - Python exceptions are values of [exn] (of [error] in the second
      file); a computation that may raise returns a [result] (an
      [outcome]).  Code that talks to the database runs in the monad [M],
      which threads the state of the connection and keeps that state when
      an exception is raised, as Python does.
    - The relational store is a record of tables, each a list of rows.  A
      connection holds the committed tables ([store], what every reader
      sees) and the uncommitted working copy of its open transaction.
    - Integers are [Z], with the 64 bits of an SQL INTEGER checked where
      the engine checks them; Python floats and SQL REAL values are
      binary64 numbers ([Float]); text is [string].
    - The pieces of the Python runtime whose behaviour is not written in
      the sources (text of a float, [str.strip], the [Decimal] parser, ...)
      are fields of the class [Runtime] or variables of a section; every
      statement holds for all their values.
    - An SQL query is read as a function on lists of rows; the alert
      statement is also kept as the text the handler builds, because the
      engine has to prepare that text first. *)

From Stdlib Require Import ZArith QArith Qround Qabs Lqa List String Ascii Bool Lia.
From Stdlib Require Import DecimalString.
From Stdlib Require Import Floats.SpecFloat.
From Stdlib Require Import Sorting.Sorted Sorting.Permutation.
From Stdlib Require Import RelationClasses.
Import ListNotations.

Set Warnings "-register-all".
#[local] Open Scope string_scope.
#[local] Open Scope Z_scope.

(** ** Python values shared by both files *)

Module Py.

(** [str(n)] for an integer. *)
Definition str_of_int (n : Z) : string := NilZero.string_of_int (Z.to_int n).

(** [needle in hay] for two strings. *)
Fixpoint contains (needle hay : string) : bool :=
  prefix needle hay ||
  match hay with
  | EmptyString => false
  | String _ rest => contains needle rest
  end.

(** [int(x)] on the number a finite float stands for: truncation toward
    zero. *)
Definition int_of_float (x : Q) : Z := Z.quot (Qnum x) (Zpos (Qden x)).

(** The integer nearest to [x], ties to the even one: how [round] chooses
    the last digit it keeps. *)
Definition round_half_even (x : Q) : Z :=
  let f := Qfloor x in
  match Qcompare (x - inject_Z f) (1 # 2) with
  | Lt => f
  | Gt => f + 1
  | Eq => if Z.even f then f else f + 1
  end.

End Py.

(** ** Binary64 numbers *)

(** A Python float and an SQL REAL are IEEE 754 binary64 numbers.  The
    operations are those of [SpecFloat] at precision 53: the exact result
    rounded to the nearest number, ties to the even mantissa. *)
Module Float.

Definition float : Set := spec_float.

Definition prec : Z := 53.
Definition emax : Z := 1024.

Definition add : float -> float -> float := SFadd prec emax.
Definition mul : float -> float -> float := SFmul prec emax.
Definition div : float -> float -> float := SFdiv prec emax.

Definition zero : float := S754_zero false.

(** The float nearest to the integer [n]. *)
Definition of_int (n : Z) : float := binary_normalize prec emax n 0 false.

(** The integer [n] itself, as the operand of a quotient of integers. *)
Definition exact (n : Z) : float :=
  match n with
  | Z0 => S754_zero false
  | Zpos m => S754_finite false m 0
  | Zneg m => S754_finite true m 0
  end.

(** The float nearest to [a / b]. *)
Definition ratio (a b : Z) : float := div (exact a) (exact b).

(** The float a decimal literal denotes: [of_decimal 1999 2] is 19.99. *)
Definition of_decimal (m : Z) (k : nat) : float := ratio m (10 ^ Z.of_nat k).

Definition half : float := of_decimal 5 1.

Definition is_nan (x : float) : bool :=
  match x with
  | S754_nan => true
  | _ => false
  end.

Definition is_zero (x : float) : bool :=
  match x with
  | S754_zero _ => true
  | _ => false
  end.

Definition is_finite (x : float) : bool :=
  match x with
  | S754_zero _ | S754_finite _ _ _ => true
  | _ => false
  end.

(** The number a finite float stands for. *)
Definition to_Q (x : float) : Q :=
  match x with
  | S754_finite s m e =>
      let n := if s then Zneg m else Zpos m in
      match e with
      | Z0 => inject_Z n
      | Zpos k => inject_Z (n * 2 ^ e)
      | Zneg k => n # (2 ^ k)
      end
  | _ => 0
  end.

(** The order of the floats: the infinities at the ends, the two zeros
    equal.  NaN, which no stored REAL is, is put below everything. *)
Definition rank (x : float) : Z :=
  match x with
  | S754_nan => -2
  | S754_infinity true => -1
  | S754_infinity false => 1
  | _ => 0
  end.

Definition compare (x y : float) : comparison :=
  match rank x ?= rank y with
  | Eq => Qcompare (to_Q x) (to_Q y)
  | c => c
  end.

(** [x <= y] and [x < y]: false when one of the two is NaN. *)
Definition le (x y : float) : bool :=
  negb (is_nan x) && negb (is_nan y)
  && match compare x y with
     | Gt => false
     | _ => true
     end.

Definition lt (x y : float) : bool :=
  negb (is_nan x) && negb (is_nan y)
  && match compare x y with
     | Lt => true
     | _ => false
     end.

End Float.

(** ** SQLite *)

(** What the two files use of the engine without defining it: the range
    of an INTEGER and the tokens of a statement.  A statement that holds a
    token the engine does not recognise cannot be prepared:
    [sqlite3.OperationalError]. *)
Module Sqlite.

(** An INTEGER has 64 bits. *)
Definition int64 (n : Z) : bool := (- 2 ^ 63 <=? n)%Z && (n <? 2 ^ 63)%Z.
Arguments int64 n : simpl never.

Definition code (c : ascii) : nat := nat_of_ascii c.

Definition is_space (c : ascii) : bool :=
  let n := code c in
  Nat.eqb n 32 || (Nat.leb 9 n && Nat.leb n 13).

Definition is_digit (c : ascii) : bool :=
  let n := code c in Nat.leb 48 n && Nat.leb n 57.

Definition is_hex (c : ascii) : bool :=
  let n := code c in
  is_digit c || (Nat.leb 65 n && Nat.leb n 70) || (Nat.leb 97 n && Nat.leb n 102).

(** A character of an identifier: a letter, a digit, [_], [$] or a byte
    above 127. *)
Definition is_id_char (c : ascii) : bool :=
  let n := code c in
  is_digit c || (Nat.leb 65 n && Nat.leb n 90) || (Nat.leb 97 n && Nat.leb n 122)
  || Nat.eqb n 95 || Nat.eqb n 36 || Nat.leb 128 n.

Fixpoint drop_while (p : ascii -> bool) (l : list ascii) : list ascii :=
  match l with
  | c :: rest => if p c then drop_while p rest else l
  | [] => []
  end.

(** The text after the closing delimiter of a quoted token, a doubled
    delimiter standing for itself; [None] when the token is not closed. *)
Fixpoint after_quote (q : ascii) (l : list ascii) : option (list ascii) :=
  match l with
  | [] => None
  | c :: rest =>
      if Ascii.eqb c q then
        match rest with
        | c' :: rest' => if Ascii.eqb c' q then after_quote q rest' else Some rest
        | [] => Some rest
        end
      else after_quote q rest
  end.

(** The text after the [*/] that closes a comment, or nothing. *)
Fixpoint after_comment (l : list ascii) : list ascii :=
  match l with
  | "*"%char :: "/"%char :: rest => rest
  | _ :: rest => after_comment rest
  | [] => []
  end.

(** The text after the name of a variable ([:name], [@name], [$name],
    [#name]) and the number of characters of the name; [::] may stand
    inside the name and a parenthesised suffix may end it.  [None] when the
    suffix is not closed. *)
Fixpoint after_name (l : list ascii) (n : nat) : option (list ascii * nat) :=
  match l with
  | c :: rest =>
      if is_id_char c then after_name rest (S n)
      else if Ascii.eqb c ":" then
        match rest with
        | c' :: rest' => if Ascii.eqb c' ":" then after_name rest' n else Some (l, n)
        | [] => Some (l, n)
        end
      else if Ascii.eqb c "(" && negb (Nat.eqb n 0) then
        match drop_while (fun c => negb (is_space c) && negb (Ascii.eqb c ")")) rest with
        | ")"%char :: rest' => Some (rest', n)
        | _ => None
        end
      else Some (l, n)
  | [] => Some ([], n)
  end.

(** The text after a number, or [None] when the number runs into the
    characters of an identifier. *)
Definition after_number (l : list ascii) : option (list ascii) :=
  let hex := match l with
             | "0"%char :: x :: h :: _ =>
                 (Ascii.eqb x "x" || Ascii.eqb x "X") && is_hex h
             | _ => false
             end in
  if hex then Some (drop_while is_hex (skipn 2 l))
  else
    let after_int := drop_while is_digit l in
    let after_frac := match after_int with
                      | "."%char :: r => drop_while is_digit r
                      | _ => after_int
                      end in
    let rest :=
      match after_frac with
      | e :: d :: r =>
          if (Ascii.eqb e "e" || Ascii.eqb e "E") then
            if is_digit d then drop_while is_digit r
            else if (Ascii.eqb d "+" || Ascii.eqb d "-") then
              match r with
              | d' :: r' => if is_digit d' then drop_while is_digit r' else after_frac
              | [] => after_frac
              end
            else after_frac
          else after_frac
      | _ => after_frac
      end in
    match rest with
    | c :: _ => if is_id_char c then None else Some rest
    | [] => Some rest
    end.

(** The text after the first token of [l], or [None] when that token is
    one the tokenizer does not recognise. *)
Definition after_token (l : list ascii) : option (list ascii) :=
  match l with
  | [] => Some []
  | c :: rest =>
      if is_space c then Some (drop_while is_space rest)
      else if is_digit c then after_number l
      else if is_id_char c && negb (Ascii.eqb c "$") then
        match c, rest with
        | ("x" | "X")%char, "'"%char :: r =>
            let r' := drop_while is_hex r in
            match r' with
            | "'"%char :: r'' =>
                if Nat.even (List.length r - List.length r')%nat then Some r'' else None
            | _ => None
            end
        | _, _ => Some (drop_while is_id_char rest)
        end
      else if Ascii.eqb c "-" then
        match rest with
        | "-"%char :: r => Some (drop_while (fun c => negb (Nat.eqb (code c) 10)) r)
        | _ => Some rest
        end
      else if Ascii.eqb c "/" then
        match rest with
        | "*"%char :: r => Some (after_comment r)
        | _ => Some rest
        end
      else if Ascii.eqb c "!" then
        match rest with
        | "="%char :: r => Some r
        | _ => None
        end
      else if Ascii.eqb c "'" || Nat.eqb (code c) 34 || Ascii.eqb c "`" then
        after_quote c rest
      else if Ascii.eqb c "[" then
        match drop_while (fun c => negb (Ascii.eqb c "]")) rest with
        | _ :: r => Some r
        | [] => None
        end
      else if Ascii.eqb c "?" then Some (drop_while is_digit rest)
      else if existsb (Ascii.eqb c) (list_ascii_of_string "$@:#") then
        match after_name rest 0 with
        | Some (r, S _) => Some r
        | _ => None
        end
      else if existsb (Ascii.eqb c) (list_ascii_of_string "();+*%,&~=<>|.")
      then Some rest
      else None
  end.

(** Every token of the text is recognised. *)
Fixpoint tokens_from (fuel : nat) (l : list ascii) : bool :=
  match fuel, l with
  | _, [] => true
  | O, _ => false
  | S k, _ =>
      match after_token l with
      | Some rest => tokens_from k rest
      | None => false
      end
  end.

Definition tokenizes (statement : string) : bool :=
  let l := list_ascii_of_string statement in
  tokens_from (List.length l) l.

End Sqlite.

(** ** [improved_endpoint.py] *)

Module ImprovedEndpoint.

(** A decoded JSON value, as [request.get_json()] returns it ([JNull] is
    [None]). *)
Inductive json :=
| JNull
| JBool (b : bool)
| JInt (n : Z)
| JFloat (x : Float.float)
| JStr (s : string)
| JList (l : list json)
| JDict (d : list (string * json)).

Inductive exn :=
| ValidationError (msg : string)
| DatabaseError (msg : string)
| IntegrityError (msg : string)   (* sqlite3.IntegrityError *)
| SqliteError (msg : string)      (* every other sqlite3.Error *)
| InvalidOperation (msg : string) (* decimal.InvalidOperation *)
| ValueError (msg : string)
| TypeError (msg : string)
| AttributeError (msg : string)
| KeyError (msg : string)
| OverflowError (msg : string).

(** [str(e)] *)
Definition exn_str (e : exn) : string :=
  match e with
  | ValidationError m | DatabaseError m | IntegrityError m | SqliteError m
  | InvalidOperation m | ValueError m | TypeError m | AttributeError m
  | KeyError m | OverflowError m => m
  end.

Inductive result (A : Type) :=
| Ok (a : A)
| Raise (e : exn).
Arguments Ok {A} a.
Arguments Raise {A} e.

(** What the sources use of the Python runtime without defining it. *)
Class Runtime := {
  repr_of : json -> string;                  (* str() of a float, list or dict *)
  strip : string -> string;                  (* str.strip() *)
  int_of_str : string -> option Z;           (* int(s); None: ValueError *)
  Decimal : Type;
  Decimal_of_str : string -> option Decimal; (* None: InvalidOperation *)
  Decimal_lt0 : Decimal -> option bool;      (* d < 0; None: InvalidOperation (NaN) *)
  Decimal_str : Decimal -> string            (* str(d) *)
}.

(** *** The response *)

Inductive body :=
| ErrorBody (error : string)
| CreatedBody (product_id sku name price : string)
              (warehouse_id initial_stock : Z) (created_at : string).

Record response := { payload : body; status : Z }.

Definition error_response (msg : string) (code : Z) : response :=
  {| payload := ErrorBody msg; status := code |}.

(** *** The tables [add_product] reads and writes *)

Record product_row := {
  p_id : string;
  p_sku : string;
  p_name : string;
  p_description : json;
  p_price : string;
  p_supplier_id : json;
  p_low_stock_threshold : json;
  p_created_by : json;
  p_created_at : string
}.

Record inventory_row := {
  i_id : string;
  i_product_id : string;
  i_warehouse_id : Z;
  i_current_stock : Z;
  i_created_by : json;
  i_created_at : string
}.

Record transaction_row := {
  t_id : string;
  t_product_id : string;
  t_warehouse_id : Z;
  t_transaction_type : string;
  t_quantity : Z;
  t_reason : string;
  t_created_by : json;
  t_created_at : string
}.

Record db := {
  warehouses : list Z;                       (* the ids of the warehouses *)
  products : list product_row;
  inventory : list inventory_row;
  inventory_transactions : list transaction_row
}.

(** The connection: [store] is the committed database, the one any other
    reader sees; [txn] is the working copy of the open transaction;
    [seen] records the committed database after every call to the storage
    layer (newest first). *)
Record world := {
  store : db;
  txn : option db;
  seen : list db
}.

Definition M (A : Type) : Type := world -> result A * world.

Definition ret {A} (a : A) : M A := fun w => (Ok a, w).
Definition raise {A} (e : exn) : M A := fun w => (Raise e, w).
Definition bind {A B} (m : M A) (k : A -> M B) : M B :=
  fun w => match m w with
           | (Ok a, w') => k a w'
           | (Raise e, w') => (Raise e, w')
           end.
Definition lift {A} (r : result A) : M A := fun w => (r, w).

(** [try: body  except ... as e: handler e] *)
Definition try_except {A} (body : M A) (handler : exn -> M A) : M A :=
  fun w => match body w with
           | (Ok a, w') => (Ok a, w')
           | (Raise e, w') => handler e w'
           end.

(** [try: body  finally: cleanup] *)
Definition try_finally {A} (body : M A) (cleanup : M unit) : M A :=
  fun w => let (r, w') := body w in
           match cleanup w' with
           | (Ok _, w'') => (r, w'')
           | (Raise e, w'') => (Raise e, w'')
           end.

Declare Scope py_scope.
Delimit Scope py_scope with py.
Notation "x <- m ;; k" := (bind m (fun x => k))
  (at level 61, m at next level, right associativity) : py_scope.
Notation "m ;; k" := (bind m (fun _ => k))
  (at level 61, right associativity) : py_scope.
#[local] Open Scope py_scope.

(** The same two operations for code that touches no connection. *)
Definition rbind {A B} (r : result A) (k : A -> result B) : result B :=
  match r with
  | Ok a => k a
  | Raise e => Raise e
  end.

(** *** The storage layer *)

(** The calls [add_product] makes to the storage layer, in program order. *)
Inductive step :=
| Connect | Begin | SelectWarehouse | SelectSku
| InsertProduct | InsertInventory | InsertTransaction | Commit.

(** What the request handler takes from its environment: for every storage
    call the exception the store answers with, if any; the values of the
    three [uuid.uuid4()] calls and of the four [datetime.utcnow()] calls. *)
Record env := {
  fault : step -> option exn;
  uuid4 : nat -> string;
  utcnow : nat -> string
}.

Definition view (w : world) : db :=
  match txn w with
  | Some d => d
  | None => store w
  end.

Definition observe (w : world) : world :=
  {| store := store w; txn := txn w; seen := store w :: seen w |}.

(** One call to the storage layer: the store either raises, and then the
    call has no effect, or performs the operation. *)
Definition execute {A} (e : env) (s : step) (op : M A) : M A :=
  fun w => match fault e s with
           | Some x => (Raise x, observe w)
           | None => let (r, w') := op w in (r, observe w')
           end.

Definition begin_transaction : M unit :=
  fun w => (Ok tt, {| store := store w; txn := Some (view w); seen := seen w |}).

Definition commit : M unit :=
  fun w => (Ok tt, {| store := view w; txn := None; seen := seen w |}).

Definition rollback : M unit :=
  fun w => (Ok tt, {| store := store w; txn := None; seen := seen w |}).

Definition close : M unit := rollback.

(** What can be bound to a [?]: not a list, not a dict, and no integer
    outside the 64 bits of an INTEGER. *)
Definition bindable (v : json) : bool :=
  match v with
  | JList _ | JDict _ => false
  | JInt n => Sqlite.int64 n
  | _ => true
  end.

Definition unsupported : exn :=
  SqliteError "Error binding parameter - probably unsupported type.".

Definition too_large : exn :=
  OverflowError "Python int too large to convert to SQLite INTEGER".

(** The exception for a value that cannot be bound. *)
Definition unbound (v : json) : exn :=
  match v with
  | JInt _ => too_large
  | _ => unsupported
  end.

(** The parameters of a statement are bound in order, before the
    statement runs; the first that cannot be bound raises. *)
Fixpoint binding (params : list json) : result unit :=
  match params with
  | [] => Ok tt
  | v :: rest => if bindable v then binding rest else Raise (unbound v)
  end.

(** [SELECT id FROM warehouses WHERE id = ?] followed by [fetchone()]:
    is there a row?  An id of the table is a stored INTEGER, so only an id
    that is not in the table can be too large to bind. *)
Definition select_warehouse (id : Z) : M bool :=
  fun w => if existsb (Z.eqb id) (warehouses (view w)) then (Ok true, w)
           else if Sqlite.int64 id then (Ok false, w)
           else (Raise too_large, w).

(** [SELECT id FROM products WHERE sku = ?] followed by [fetchone()]. *)
Definition select_product_by_sku (sku : string) : M bool :=
  fun w => (Ok (existsb (fun p => String.eqb (p_sku p) sku) (products (view w))), w).

Definition update_txn (f : db -> db) : M unit :=
  fun w => (Ok tt, {| store := store w; txn := Some (f (view w)); seen := seen w |}).

(** The three INSERTs.  Of the bound values the ids, the SKU, the name,
    the price and the times are text; the others are what the request
    gave. *)
Definition insert_product (r : product_row) : M unit :=
  lift (binding [p_description r; p_supplier_id r; p_low_stock_threshold r;
                 p_created_by r]) ;;
  update_txn (fun d =>
    {| warehouses := warehouses d;
       products := products d ++ [r];
       inventory := inventory d;
       inventory_transactions := inventory_transactions d |}).

Definition insert_inventory (r : inventory_row) : M unit :=
  lift (binding [JInt (i_warehouse_id r); JInt (i_current_stock r); i_created_by r]) ;;
  update_txn (fun d =>
    {| warehouses := warehouses d;
       products := products d;
       inventory := inventory d ++ [r];
       inventory_transactions := inventory_transactions d |}).

Definition insert_transaction (r : transaction_row) : M unit :=
  lift (binding [JInt (t_warehouse_id r); JInt (t_quantity r); t_created_by r]) ;;
  update_txn (fun d =>
    {| warehouses := warehouses d;
       products := products d;
       inventory := inventory d;
       inventory_transactions := inventory_transactions d ++ [r] |}).

(** *** [add_product] *)

Section AddProduct.

Context {rt : Runtime}.
Variable e : env.

(** Truth value of a JSON value: [not data]. *)
Definition truthy (v : json) : bool :=
  match v with
  | JNull => false
  | JBool b => b
  | JInt n => negb (n =? 0)
  | JFloat x => negb (Float.is_zero x)
  | JStr s => negb (String.eqb s "")
  | JList l => match l with [] => false | _ => true end
  | JDict d => match d with [] => false | _ => true end
  end.

Fixpoint lookup (k : string) (d : list (string * json)) : option json :=
  match d with
  | [] => None
  | (k', v) :: rest => if String.eqb k' k then Some v else lookup k rest
  end.

(** [field in data] *)
Definition py_in (field : string) (data : json) : result bool :=
  match data with
  | JDict d => Ok (match lookup field d with Some _ => true | None => false end)
  | JList l => Ok (existsb (fun v => match v with
                                     | JStr s => String.eqb s field
                                     | _ => false
                                     end) l)
  | JStr s => Ok (Py.contains field s)
  | _ => Raise (TypeError "argument is not iterable")
  end.

(** [data[field]] *)
Definition getitem (data : json) (field : string) : result json :=
  match data with
  | JDict d => match lookup field d with
               | Some v => Ok v
               | None => Raise (KeyError field)
               end
  | _ => Raise (TypeError "indices must be integers")
  end.

(** [data.get(field, default)] *)
Definition get (data : json) (field : string) (default : json) : result json :=
  match data with
  | JDict d => match lookup field d with
               | Some v => Ok v
               | None => Ok default
               end
  | _ => Raise (AttributeError "object has no attribute 'get'")
  end.

(** [str(v)] *)
Definition py_str (v : json) : string :=
  match v with
  | JNull => "None"
  | JBool true => "True"
  | JBool false => "False"
  | JInt n => Py.str_of_int n
  | JStr s => s
  | _ => repr_of v
  end.

(** [int(v)] *)
Definition py_int (v : json) : result Z :=
  match v with
  | JInt n => Ok n
  | JBool b => Ok (if b then 1 else 0)
  | JFloat S754_nan => Raise (ValueError "cannot convert float NaN to integer")
  | JFloat (S754_infinity _) =>
      Raise (OverflowError "cannot convert float infinity to integer")
  | JFloat x => Ok (Py.int_of_float (Float.to_Q x))
  | JStr s => match int_of_str s with
              | Some n => Ok n
              | None => Raise (ValueError "invalid literal for int() with base 10")
              end
  | _ => Raise (TypeError "int() argument must be a string or a number")
  end.

Definition required_fields : list string :=
  ["sku"; "name"; "price"; "warehouse_id"; "quantity"].

(** The loop over [required_fields]: the first field that is absent or
    [None], if there is one. *)
Fixpoint first_missing (fields : list string) (data : json) : result (option string) :=
  match fields with
  | [] => Ok None
  | field :: rest =>
      rbind (py_in field data) (fun present =>
      if negb present then Ok (Some field)
      else rbind (getitem data field) (fun v =>
           match v with
           | JNull => Ok (Some field)
           | _ => first_missing rest data
           end))
  end.

(** [Decimal(str(data['price']))] with its sign test, inside its own
    [try] / [except (InvalidOperation, ValueError)]. *)
Definition parse_price (v : json) : result Decimal :=
  let attempt :=
    match Decimal_of_str (py_str v) with
    | None => Raise (InvalidOperation "ConversionSyntax")
    | Some price =>
        match Decimal_lt0 price with
        | None => Raise (InvalidOperation "InvalidOperation")
        | Some true => Raise (ValidationError "Price cannot be negative")
        | Some false => Ok price
        end
    end in
  match attempt with
  | Raise (InvalidOperation _) | Raise (ValueError _) =>
      Raise (ValidationError "Invalid price format")
  | r => r
  end.

(** The values [add_product] holds once its input is validated. *)
Record fields := {
  sku : string;
  name : string;
  warehouse_id : Z;
  quantity : Z;
  price : Decimal;
  description : json;
  supplier_id : json;
  low_stock_threshold : json;
  created_by : json
}.

(** Lines 28 to 66: either an early [return] (left) or the validated
    fields (right). *)
Definition parse_request (data : json) : result (response + fields) :=
  if negb (truthy data) then Ok (inl (error_response "No JSON data provided" 400))
  else
  rbind (first_missing required_fields data) (fun missing =>
  match missing with
  | Some field => Ok (inl (error_response ("Missing required field: " ++ field) 400))
  | None =>
      rbind (getitem data "sku") (fun v_sku =>
      let sku := strip (py_str v_sku) in
      rbind (getitem data "name") (fun v_name =>
      let name := strip (py_str v_name) in
      rbind (getitem data "warehouse_id") (fun v_wh =>
      rbind (py_int v_wh) (fun warehouse_id =>
      rbind (getitem data "quantity") (fun v_qty =>
      rbind (py_int v_qty) (fun quantity =>
      if String.eqb sku "" then Raise (ValidationError "SKU cannot be empty")
      else if String.eqb name "" then Raise (ValidationError "Product name cannot be empty")
      else if quantity <? 0 then Raise (ValidationError "Quantity cannot be negative")
      else
      rbind (getitem data "price") (fun v_price =>
      rbind (parse_price v_price) (fun price =>
      rbind (get data "description" (JStr "")) (fun description =>
      rbind (get data "supplier_id" JNull) (fun supplier_id =>
      rbind (get data "low_stock_threshold" (JInt 10)) (fun low_stock_threshold =>
      rbind (get data "created_by" (JStr "system")) (fun created_by =>
      Ok (inr {| sku := sku; name := name; warehouse_id := warehouse_id;
                 quantity := quantity; price := price;
                 description := description; supplier_id := supplier_id;
                 low_stock_threshold := low_stock_threshold;
                 created_by := created_by |})))))))))))))
  end).

(** The three rows of one creation. *)
Definition new_product (f : fields) : product_row :=
  {| p_id := uuid4 e 0; p_sku := sku f; p_name := name f;
     p_description := description f; p_price := Decimal_str (price f);
     p_supplier_id := supplier_id f;
     p_low_stock_threshold := low_stock_threshold f;
     p_created_by := created_by f; p_created_at := utcnow e 0 |}.

Definition new_inventory (f : fields) : inventory_row :=
  {| i_id := uuid4 e 1; i_product_id := uuid4 e 0;
     i_warehouse_id := warehouse_id f; i_current_stock := quantity f;
     i_created_by := created_by f; i_created_at := utcnow e 1 |}.

Definition new_transaction (f : fields) : transaction_row :=
  {| t_id := uuid4 e 2; t_product_id := uuid4 e 0;
     t_warehouse_id := warehouse_id f; t_transaction_type := "INITIAL_STOCK";
     t_quantity := quantity f; t_reason := "Product creation";
     t_created_by := created_by f; t_created_at := utcnow e 2 |}.

Definition created (f : fields) : response :=
  {| payload := CreatedBody (uuid4 e 0) (sku f) (name f) (Decimal_str (price f))
                            (warehouse_id f) (quantity f) (utcnow e 3);
     status := 201 |}.

(** The body of the inner [try], lines 72 to 133. *)
Definition transaction (f : fields) : M response :=
  execute e Begin begin_transaction ;;
  found <- execute e SelectWarehouse (select_warehouse (warehouse_id f)) ;;
  if negb found
  then raise (ValidationError
                ("Warehouse " ++ Py.str_of_int (warehouse_id f) ++ " does not exist"))
  else
  taken <- execute e SelectSku (select_product_by_sku (sku f)) ;;
  if taken
  then raise (ValidationError ("Product with SKU " ++ sku f ++ " already exists"))
  else
  execute e InsertProduct (insert_product (new_product f)) ;;
  execute e InsertInventory (insert_inventory (new_inventory f)) ;;
  execute e InsertTransaction (insert_transaction (new_transaction f)) ;;
  execute e Commit commit ;;
  ret (created f).

(** The two [except] clauses of the inner [try], lines 135 to 148. *)
Definition on_failure (f : fields) (x : exn) : M response :=
  match x with
  | IntegrityError msg =>
      rollback ;;
      if Py.contains "UNIQUE constraint failed" msg
      then ret (error_response ("Product with SKU " ++ sku f ++ " already exists") 409)
      else ret (error_response "Database integrity violation" 500)
  | _ =>
      rollback ;;
      raise (DatabaseError ("Failed to create product: " ++ exn_str x))
  end.

(** The inner [try] / [except] / [finally], lines 71 to 151. *)
Definition create (f : fields) : M response :=
  try_finally (try_except (transaction f) (on_failure f)) close.

(** The [except] clauses of the outer [try], lines 153 to 163. *)
Definition on_error (x : exn) : M response :=
  match x with
  | ValidationError msg => ret (error_response msg 400)
  | DatabaseError _ => ret (error_response "Internal server error" 500)
  | _ => ret (error_response "Internal server error" 500)
  end.

Definition add_product (data : json) : M response :=
  try_except
    (parsed <- lift (parse_request data) ;;
     match parsed with
     | inl early => ret early
     | inr f => execute e Connect (ret tt) ;; create f
     end)
    on_error.

(** The database once the three rows of a creation are committed. *)
Definition with_creation (f : fields) (d : db) : db :=
  {| warehouses := warehouses d;
     products := products d ++ [new_product f];
     inventory := inventory d ++ [new_inventory f];
     inventory_transactions := inventory_transactions d ++ [new_transaction f] |}.

(** Every committed database a reader may have seen is the one before the
    request or the one with the three rows. *)
Definition settled (f : fields) (d : db) (w : world) : Prop :=
  Forall (fun s => s = d \/ s = with_creation f d) (seen w).

(** A handler always answers: the outcome of a request on a database. *)
Definition run (data : json) (d : db) : response * world :=
  match add_product data {| store := d; txn := None; seen := [] |} with
  | (Ok r, w) => (r, w)
  | (Raise _, w) => (error_response "Internal server error" 500, w)
  end.

End AddProduct.

(** The exception is the one the handler takes for a uniqueness violation
    (line 138). *)
Definition unique_violation (x : exn) : bool :=
  match x with
  | IntegrityError msg => Py.contains "UNIQUE constraint failed" msg
  | _ => false
  end.

End ImprovedEndpoint.

(** ** [api_implementation.py] *)

Module ApiImplementation.

Import Float.

(** *** The tables *)

(** A value of a column without a fixed storage class ([products.price]). *)
Inductive value :=
| Null
| Int (n : Z)
| Real (x : float)
| Text (s : string).

Record company := {
  c_id : string;
  c_is_active : bool
}.

Record product := {
  p_id : string;
  p_sku : string;
  p_name : string;
  p_price : value;
  p_low_stock_threshold : Z;
  p_supplier_id : option string;     (* NULL: no supplier linked *)
  p_is_active : bool;
  p_company_id : string;
  p_reorder_quantity : Z
}.

Record inventory_record := {
  i_product_id : string;
  i_warehouse_id : string;
  i_current_stock : Z;
  i_reserved_stock : Z;
  i_available_stock : Z
}.

Record warehouse := {
  w_id : string;
  w_name : string;
  w_is_active : bool
}.

Record supplier := {
  s_id : string;
  s_name : string;
  s_email : string;
  s_phone : string;
  s_is_active : bool
}.

(** [sale_day] is the calendar day of [sale_date], counted in days. *)
Record sale := {
  st_product_id : string;
  st_warehouse_id : string;
  sale_day : Z;
  quantity_sold : Z
}.

Record database := {
  companies : list company;
  products : list product;
  inventory : list inventory_record;
  warehouses : list warehouse;
  suppliers : list supplier;
  sales_transactions : list sale
}.

(** *** Exceptions *)

Inductive error :=
| ValueError (msg : string)
| ZeroDivisionError
| OverflowError
| SqliteError (msg : string).      (* sqlite3.Error and its subclasses *)

Inductive outcome (A : Type) :=
| Done (a : A)
| Raised (e : error).
Arguments Done {A} a.
Arguments Raised {A} e.

Definition and_then {A B} (o : outcome A) (k : A -> outcome B) : outcome B :=
  match o with
  | Done a => k a
  | Raised e => Raised e
  end.

(** *** Arithmetic of the runtime *)

(** The numbers from [overflow] on are nearer to 2^1024 than to the
    largest float. *)
Definition overflow : Z := 2 ^ 1024 - 2 ^ 970.

(** [float(n)], also where an integer meets a float in [*] or [/]. *)
Definition float_of_int (n : Z) : outcome float :=
  if Z.abs n <? overflow then Done (of_int n) else Raised OverflowError.

(** [a / b] on integers: the float nearest to the quotient. *)
Definition int_truediv (a b : Z) : outcome float :=
  if b =? 0 then Raised ZeroDivisionError
  else if overflow * Z.abs b <=? Z.abs a then Raised OverflowError
  else Done (ratio a b).

(** [x / y] on floats *)
Definition float_truediv (x y : float) : outcome float :=
  if is_zero y then Raised ZeroDivisionError else Done (div x y).

(** [int(x)]: truncation toward zero. *)
Definition int_of_float (x : float) : outcome Z :=
  match x with
  | S754_nan => Raised (ValueError "cannot convert float NaN to integer")
  | S754_infinity _ => Raised OverflowError
  | _ => Done (Py.int_of_float (to_Q x))
  end.

(** [n > x] for an integer and a float: the numbers themselves are
    compared. *)
Definition int_gt_float (n : Z) (x : float) : bool := lt x (exact n).

(** [x <= n] *)
Definition float_le_int (x : float) (n : Z) : bool := le x (exact n).

(** [round(x, ndigits)]: the decimal with [ndigits] digits after the point
    nearest to [x], ties to the even digit, and then the float nearest to
    that decimal. *)
Definition py_round (x : float) (ndigits : nat) : float :=
  match x with
  | S754_finite s _ _ =>
      let scale := 10 ^ Z.of_nat ndigits in
      let n := Py.round_half_even (Qabs (to_Q x) * inject_Z scale) in
      if n =? 0 then S754_zero s
      else ratio (if s then - n else n) scale
  | _ => x
  end.

(** *** SQL building blocks *)

(** Where the engine ranks NULL in an ORDER BY: below every value (SQLite)
    or above every value.  The statements about the reorder query hold
    for both. *)
Inductive null_rank := NullsSmallest | NullsLargest.

Definition lex (c1 c2 : comparison) : comparison :=
  match c1 with
  | Eq => c2
  | c => c
  end.

Definition compare_nullable (nr : null_rank) (a b : option float) : comparison :=
  match a, b with
  | None, None => Eq
  | None, Some _ => match nr with NullsSmallest => Lt | NullsLargest => Gt end
  | Some _, None => match nr with NullsSmallest => Gt | NullsLargest => Lt end
  | Some x, Some y => Float.compare x y
  end.

Definition leb_of {A} (cmp : A -> A -> comparison) (a b : A) : bool :=
  match cmp a b with
  | Gt => false
  | _ => true
  end.

(** ORDER BY: a stable insertion sort along the comparison of the keys. *)
Fixpoint insert_by {A} (cmp : A -> A -> comparison) (x : A) (l : list A) : list A :=
  match l with
  | [] => [x]
  | y :: rest => if leb_of cmp x y then x :: l else y :: insert_by cmp x rest
  end.

Definition order_by {A} (cmp : A -> A -> comparison) (l : list A) : list A :=
  fold_right (insert_by cmp) [] l.

(** [AVG] over integers: NULL over no rows; otherwise the REAL sum of the
    values, added one after the other in the order of the rows, over their
    number.  (SQLite from 3.44 on compensates the rounding of the sum; the
    two differ only where a partial sum is not itself a float.) *)
Definition sql_avg (l : list Z) : option float :=
  match l with
  | [] => None
  | _ => Some (div (fold_left (fun acc v => add acc (of_int v)) l zero)
                   (of_int (Z.of_nat (List.length l))))
  end.

(** [SUM] over integers, for a group that has rows: the statement fails
    when a partial sum leaves the 64 bits. *)
Fixpoint sum_from (acc : Z) (l : list Z) : outcome Z :=
  match l with
  | [] => Done acc
  | v :: rest =>
      if Sqlite.int64 (acc + v) then sum_from (acc + v) rest
      else Raised (SqliteError "integer overflow")
  end.

Definition sql_sum (l : list Z) : outcome Z := sum_from 0 l.

Definition coalesce {A} (a : option A) (default : A) : A :=
  match a with
  | Some x => x
  | None => default
  end.

(** [CAST(x AS INTEGER)] for a REAL: truncation toward zero, kept within
    the 64 bits.  (No stored REAL is NaN.) *)
Definition cast_integer (x : float) : Z :=
  match x with
  | S754_infinity s => if s then - 2 ^ 63 else 2 ^ 63 - 1
  | _ => Z.max (- 2 ^ 63) (Z.min (2 ^ 63 - 1) (Py.int_of_float (to_Q x)))
  end.

(** The sales of one product in one warehouse with
    [sale_date >= DATE('now', '-days days')]. *)
Definition recent_sales (d : database) (today days : Z) (product wh : string)
  : list sale :=
  filter (fun st => String.eqb (st_product_id st) product
                    && String.eqb (st_warehouse_id st) wh
                    && (today - days <=? sale_day st))
         (sales_transactions d).

Fixpoint all_done {A} (l : list (outcome A)) : outcome (list A) :=
  match l with
  | [] => Done []
  | o :: rest =>
      and_then o (fun a => and_then (all_done rest) (fun r => Done (a :: r)))
  end.

(** [SELECT DATE(sale_date), SUM(quantity_sold) ... GROUP BY DATE(sale_date)]
    (lines 87 to 92): one total per day that has a sale, in the order of
    the days. *)
Definition daily_sales (l : list sale) : outcome (list Z) :=
  all_done
    (map (fun day => sql_sum (map quantity_sold
                                (filter (fun st => sale_day st =? day) l)))
         (order_by Z.compare (nodup Z.eq_dec (map sale_day l)))).

(** The first correlated subquery of the alert statement (lines 84 to 95). *)
Definition avg_daily_sales (d : database) (today days : Z) (product wh : string)
  : outcome float :=
  and_then (daily_sales (recent_sales d today days product wh)) (fun totals =>
  Done (coalesce (sql_avg totals) zero)).

(** [FROM products p JOIN inventory i ON p.id = i.product_id
     JOIN warehouses w ON i.warehouse_id = w.id
     LEFT JOIN suppliers s ON p.supplier_id = s.id] *)
Definition joined : Type := product * inventory_record * warehouse * option supplier.

Definition left_join_suppliers (d : database) (p : product) : list (option supplier) :=
  match filter (fun s => match p_supplier_id p with
                         | Some k => String.eqb k (s_id s)
                         | None => false
                         end) (suppliers d) with
  | [] => [None]
  | l => map Some l
  end.

Definition from_clause (d : database) : list joined :=
  flat_map (fun p =>
    flat_map (fun i =>
      if String.eqb (p_id p) (i_product_id i) then
        flat_map (fun w =>
          if String.eqb (i_warehouse_id i) (w_id w) then
            map (fun s => (p, i, w, s)) (left_join_suppliers d p)
          else []) (warehouses d)
      else []) (inventory d)) (products d).

(** *** [get_low_stock_alerts] *)

(** The statement, as lines 67 to 131 put it together. *)
Definition base_query : string := "
        SELECT 
            p.id as product_id,
            p.sku,
            p.name as product_name,
            p.price,
            p.low_stock_threshold,
            w.id as warehouse_id,
            w.name as warehouse_name,
            i.current_stock,
            i.reserved_stock,
            i.available_stock,
            s.id as supplier_id,
            s.name as supplier_name,
            s.email as supplier_email,
            s.phone as supplier_phone,
            -- Calculate average daily sales over the lookback period
            COALESCE(
                (SELECT AVG(daily_sales.total_sold) 
                 FROM (
                    SELECT DATE(sale_date) as sale_day, SUM(quantity_sold) as total_sold
                    FROM sales_transactions st
                    WHERE st.product_id = p.id 
                    AND st.warehouse_id = w.id
                    AND st.sale_date >= DATE('now', '-' || ? || ' days')
                    GROUP BY DATE(sale_date)
                 ) daily_sales), 
                0
            ) as avg_daily_sales,
            -- Total sales in lookback period
            COALESCE(
                (SELECT SUM(quantity_sold)
                 FROM sales_transactions st
                 WHERE st.product_id = p.id 
                 AND st.warehouse_id = w.id
                 AND st.sale_date >= DATE('now', '-' || ? || ' days')), 
                0
            ) as total_recent_sales
        FROM products p
        JOIN inventory i ON p.id = i.product_id
        JOIN warehouses w ON i.warehouse_id = w.id
        LEFT JOIN suppliers s ON p.supplier_id = s.id
        WHERE p.company_id = ?
        AND p.is_active = TRUE
        AND w.is_active = TRUE
        AND i.current_stock <= p.low_stock_threshold
        ".

Definition order_clause : string := "
        ORDER BY 
            CASE WHEN i.current_stock = 0 THEN 0 ELSE 1 END,  -- Zero stock first
            (i.current_stock::FLOAT / NULLIF(p.low_stock_threshold, 0)) ASC,  -- Most critical first
            p.name ASC
        ".

(** [if warehouse_id:] *)
Definition given (warehouse_id : option string) : bool :=
  match warehouse_id with
  | Some k => negb (String.eqb k "")
  | None => false
  end.

Definition alert_statement (include_zero_stock : bool)
    (warehouse_id : option string) : string :=
  base_query
  ++ (if negb include_zero_stock then " AND i.current_stock > 0" else "")
  ++ (if given warehouse_id then " AND w.id = ?" else "")
  ++ order_clause.

Definition alert_params (company_id : string) (days_lookback : Z)
    (warehouse_id : option string) : list value :=
  [Int days_lookback; Int days_lookback; Text company_id]
  ++ match warehouse_id with
     | Some k => if String.eqb k "" then [] else [Text k]
     | None => []
     end.

(** One row of the result of the alert statement (its SELECT list).
    [r_avg_daily_sales] is [float(row['avg_daily_sales'])]. *)
Record alert_row := {
  r_product_id : string;
  r_sku : string;
  r_product_name : string;
  r_price : value;
  r_low_stock_threshold : Z;
  r_warehouse_id : string;
  r_warehouse_name : string;
  r_current_stock : Z;
  r_reserved_stock : Z;
  r_available_stock : Z;
  r_supplier : option supplier;      (* the columns of s, NULL together *)
  r_avg_daily_sales : float;
  r_total_recent_sales : Z
}.

(** The WHERE clause of the statement (lines 109 to 123) with its two
    optional conjuncts, on a row of its FROM clause. *)
Definition low_stock_where (company_id : string) (include_zero_stock : bool)
    (warehouse_id : option string) (j : joined) : bool :=
  let '(p, i, w, _) := j in
  String.eqb (p_company_id p) company_id
  && p_is_active p
  && w_is_active w
  && (i_current_stock i <=? p_low_stock_threshold p)
  && (if negb include_zero_stock then 0 <? i_current_stock i else true)
  && match warehouse_id with
     | Some k => if String.eqb k "" then true else String.eqb (w_id w) k
     | None => true
     end.

(** The joined rows that pass the WHERE clause. *)
Definition low_stock_rows (d : database) (company_id : string)
    (include_zero_stock : bool) (warehouse_id : option string) : list joined :=
  filter (low_stock_where company_id include_zero_stock warehouse_id) (from_clause d).

Inductive urgency := CRITICAL | HIGH | MEDIUM | LOW.

Definition urgency_eqb (a b : urgency) : bool :=
  match a, b with
  | CRITICAL, CRITICAL | HIGH, HIGH | MEDIUM, MEDIUM | LOW, LOW => true
  | _, _ => false
  end.

(** Lines 144 to 162: days until stockout and urgency. *)
Definition stockout (current_stock : Z) (avg_daily_sales : float) (threshold : Z)
  : outcome (option Z * urgency) :=
  if current_stock =? 0 then Done (Some 0, CRITICAL)
  else if float_le_int avg_daily_sales 0 then
    and_then (float_of_int threshold) (fun t =>
    Done (None,
          if int_gt_float current_stock (mul t half) then LOW else MEDIUM))
  else
    and_then (float_of_int current_stock) (fun stock =>
    and_then (float_truediv stock avg_daily_sales) (fun q =>
    and_then (int_of_float q) (fun days_until_stockout =>
    Done (Some days_until_stockout,
          if days_until_stockout <=? 7 then CRITICAL
          else if days_until_stockout <=? 14 then HIGH
          else if days_until_stockout <=? 30 then MEDIUM
          else LOW)))).

(** Line 165. *)
Definition coverage (current_stock threshold : Z) : outcome float :=
  and_then (int_truediv current_stock (Z.max threshold 1))
           (fun q => Done (mul q (of_int 100))).

Record stock_info := {
  current_stock : Z;
  reserved_stock : Z;
  available_stock : Z;
  low_stock_threshold : Z;
  stock_coverage_ratio : float
}.

Record sales_analysis := {
  sa_avg_daily_sales : float;
  sa_total_recent_sales : Z;
  analysis_period_days : Z;
  days_until_stockout : option Z
}.

Record supplier_info := {
  si_id : string;
  si_name : string;
  si_email : string;
  si_phone : string
}.

Record alert := {
  product_id : string;
  sku : string;
  product_name : string;
  price : option string;
  a_warehouse : string * string;        (* id, name *)
  stock : stock_info;
  sales : sales_analysis;
  a_supplier : option supplier_info;
  urgency_level : urgency;
  generated_at : string
}.

Section Alerts.

(** [str(x)] for a float, and the readings of the clock. *)
Variable float_str : float -> string.
Variable utcnow : nat -> string.

(** What the engine answers to a statement made of tokens it recognises:
    the rows, or an error. *)
Variable engine : string -> list value -> database -> outcome (list alert_row).

(** Truth value of [row['price']]. *)
Definition value_truthy (v : value) : bool :=
  match v with
  | Null => false
  | Int n => negb (n =? 0)
  | Real x => negb (is_zero x)
  | Text s => negb (String.eqb s "")
  end.

(** [str(row['price'])] *)
Definition value_str (v : value) : string :=
  match v with
  | Null => "None"
  | Int n => Py.str_of_int n
  | Real x => float_str x
  | Text s => s
  end.

(** The body of the loop over the rows, lines 140 to 198. *)
Definition make_alert (days_lookback : Z) (now : string) (row : alert_row)
  : outcome alert :=
  let avg_daily_sales := r_avg_daily_sales row in
  let current_stock := r_current_stock row in
  and_then (stockout current_stock avg_daily_sales (r_low_stock_threshold row))
    (fun projection =>
  and_then (coverage current_stock (r_low_stock_threshold row))
    (fun stock_coverage_ratio =>
  Done {| product_id := r_product_id row;
          sku := r_sku row;
          product_name := r_product_name row;
          price := if value_truthy (r_price row) then Some (value_str (r_price row)) else None;
          a_warehouse := (r_warehouse_id row, r_warehouse_name row);
          stock := {| current_stock := current_stock;
                      reserved_stock := r_reserved_stock row;
                      available_stock := r_available_stock row;
                      low_stock_threshold := r_low_stock_threshold row;
                      stock_coverage_ratio := py_round stock_coverage_ratio 1 |};
          sales := {| sa_avg_daily_sales := py_round avg_daily_sales 2;
                      sa_total_recent_sales := r_total_recent_sales row;
                      analysis_period_days := days_lookback;
                      days_until_stockout := fst projection |};
          a_supplier := match r_supplier row with
                      | Some s => if String.eqb (s_id s) "" then None
                                  else Some {| si_id := s_id s; si_name := s_name s;
                                               si_email := s_email s;
                                               si_phone := s_phone s |}
                      | None => None
                      end;
          urgency_level := snd projection;
          generated_at := now |})).

(** The loop: the alerts in the order of the rows. *)
Fixpoint make_alerts (days_lookback : Z) (k : nat) (rows : list alert_row)
  : outcome (list alert) :=
  match rows with
  | [] => Done []
  | row :: rest =>
      and_then (make_alert days_lookback (utcnow k) row) (fun a =>
      and_then (make_alerts days_lookback (S k) rest) (fun alerts =>
      Done (a :: alerts)))
  end.

Record summary := {
  total_alerts : nat;
  critical_alerts : nat;
  high_priority_alerts : nat;
  zero_stock_products : nat;
  products_without_supplier : nat
}.

Definition summarize (alerts : list alert) : summary :=
  {| total_alerts := List.length alerts;
     critical_alerts :=
       List.length (filter (fun a => urgency_eqb (urgency_level a) CRITICAL) alerts);
     high_priority_alerts :=
       List.length (filter (fun a => urgency_eqb (urgency_level a) HIGH) alerts);
     zero_stock_products :=
       List.length (filter (fun a => current_stock (stock a) =? 0) alerts);
     products_without_supplier :=
       List.length (filter (fun a => match a_supplier a with
                                     | None => true
                                     | Some _ => false
                                     end) alerts) |}.

Inductive reply :=
| Alerts (company_id : string) (s : summary) (alerts : list alert)
         (generated_at : string)                       (* 200 *)
| Failure (error : string) (code : Z).

(** [cursor.execute(base_query, params)] and [fetchall()], line 134: the
    statement is prepared first. *)
Definition cursor_execute (statement : string) (params : list value)
    (d : database) : outcome (list alert_row) :=
  if Sqlite.tokenizes statement then engine statement params d
  else Raised (SqliteError "unrecognized token").

(** The three [except] clauses, lines 224 to 234. *)
Definition on_error (e : error) : reply :=
  match e with
  | ValueError msg => Failure ("Invalid parameter: " ++ msg) 400
  | SqliteError _ => Failure "Database error occurred" 500
  | _ => Failure "Internal server error" 500
  end.

(** The handler, once [days_lookback] has gone through [int()]. *)
Definition get_low_stock_alerts (d : database)
    (company_id : string) (days_lookback : Z) (include_zero_stock : bool)
    (warehouse_id : option string) : reply :=
  if String.eqb company_id "" then Failure "Company ID is required" 400
  else if (days_lookback <=? 0) || (365 <? days_lookback)
  then Failure "days_lookback must be between 1 and 365" 400
  else if negb (existsb (fun c => String.eqb (c_id c) company_id && c_is_active c)
                        (companies d))
  then Failure "Company not found or inactive" 404
  else
    match cursor_execute (alert_statement include_zero_stock warehouse_id)
            (alert_params company_id days_lookback warehouse_id) d with
    | Raised e => on_error e
    | Done results =>
        match make_alerts days_lookback 0 results with
        | Done alerts =>
            Alerts company_id (summarize alerts) alerts (utcnow (List.length results))
        | Raised e => on_error e
        end
    end.

End Alerts.

(** *** [get_reorder_suggestions] *)

(** The derived table [avg_sales], joined on product and warehouse: the
    [daily_avg] of the group of that pair, NULL when the pair has no sale
    in the last 30 days. *)
Definition daily_avg (d : database) (today : Z) (product wh : string) : option float :=
  sql_avg (map quantity_sold (recent_sales d today 30 product wh)).

(** The WHERE clause of the reorder query; [s.is_active = TRUE] is not true
    on the NULL row of the left join. *)
Definition reorder_where (company_id : string) (j : joined) : bool :=
  let '(p, i, w, s) := j in
  String.eqb (p_company_id p) company_id
  && (i_current_stock i <=? p_low_stock_threshold p)
  && p_is_active p
  && match s with
     | Some s => s_is_active s
     | None => false
     end.

(** [CASE WHEN daily_avg > 0 THEN CAST(daily_avg * 30 AS INTEGER)
     ELSE p.reorder_quantity END] *)
Definition suggested_quantity (avg : option float) (reorder_quantity : Z) : Z :=
  match avg with
  | Some a => if lt zero a then cast_integer (mul a (of_int 30)) else reorder_quantity
  | None => reorder_quantity
  end.

Record suggestion := {
  sg_product_id : string;
  sg_sku : string;
  sg_product_name : string;
  sg_current_stock : Z;
  sg_warehouse : string;
  sg_supplier : option string;
  sg_supplier_email : option string;
  suggested_order_quantity : Z;
  default_reorder_quantity : Z
}.

(** [ORDER BY i.current_stock ASC, avg_sales.daily_avg DESC] *)
Definition reorder_order (nr : null_rank) (d : database) (today : Z)
    (a b : joined) : comparison :=
  let '(pa, ia, _, _) := a in
  let '(pb, ib, _, _) := b in
  lex (i_current_stock ia ?= i_current_stock ib)
      (compare_nullable nr (daily_avg d today (p_id pb) (i_warehouse_id ib))
                           (daily_avg d today (p_id pa) (i_warehouse_id ia))).

Definition reorder_query (nr : null_rank) (d : database) (today : Z)
    (company_id : string) : list joined :=
  order_by (reorder_order nr d today)
    (filter (reorder_where company_id) (from_clause d)).

Definition make_suggestion (d : database) (today : Z) (j : joined) : suggestion :=
  let '(p, i, w, s) := j in
  {| sg_product_id := p_id p;
     sg_sku := p_sku p;
     sg_product_name := p_name p;
     sg_current_stock := i_current_stock i;
     sg_warehouse := w_name w;
     sg_supplier := option_map s_name s;
     sg_supplier_email := option_map s_email s;
     suggested_order_quantity :=
       suggested_quantity (daily_avg d today (p_id p) (i_warehouse_id i))
                          (p_reorder_quantity p);
     default_reorder_quantity := p_reorder_quantity p |}.

Definition get_reorder_suggestions (nr : null_rank) (d : database) (today : Z)
    (company_id : string) : list suggestion :=
  map (make_suggestion d today) (reorder_query nr d today company_id).

(** *** Rows that differ in the sales velocity only *)

Definition with_avg_daily_sales (avg : float) (row : alert_row) : alert_row :=
  {| r_product_id := r_product_id row;
     r_sku := r_sku row;
     r_product_name := r_product_name row;
     r_price := r_price row;
     r_low_stock_threshold := r_low_stock_threshold row;
     r_warehouse_id := r_warehouse_id row;
     r_warehouse_name := r_warehouse_name row;
     r_current_stock := r_current_stock row;
     r_reserved_stock := r_reserved_stock row;
     r_available_stock := r_available_stock row;
     r_supplier := r_supplier row;
     r_avg_daily_sales := avg;
     r_total_recent_sales := r_total_recent_sales row |}.

(** *** Comparisons that sort *)

(** A three-way comparison that behaves as a total preorder. *)
Class Preorder3 {A : Type} (cmp : A -> A -> comparison) : Prop := {
  cmp_antisym : forall x y, cmp y x = CompOpp (cmp x y);
  cmp_lt_trans : forall x y z, cmp x y = Lt -> cmp y z = Lt -> cmp x z = Lt;
  cmp_eq_left : forall x y z, cmp x y = Eq -> cmp x z = cmp y z
}.

Definition precedes {A} (cmp : A -> A -> comparison) (x y : A) : Prop :=
  leb_of cmp x y = true.

End ApiImplementation.

(** ** Concrete requests and databases *)

Module Scenario.

Import ImprovedEndpoint.

Definition is_space (c : ascii) : bool :=
  let n := nat_of_ascii c in
  (Nat.eqb n 32 || (Nat.leb 9 n && Nat.leb n 13))%bool.

Fixpoint lstrip (l : list ascii) : list ascii :=
  match l with
  | c :: rest => if is_space c then lstrip rest else l
  | [] => []
  end.

Definition is_digit (c : ascii) : bool :=
  let n := nat_of_ascii c in (Nat.leb 48 n && Nat.leb n 57)%bool.

(** A runtime for the examples.  It agrees with CPython on what the
    examples contain: ASCII text, integer literals made of an optional sign
    and digits, decimal literals written as digits with at most one point
    and no redundant zero.  No example takes [str()] of a float, a list or
    a dict. *)
#[export] Instance runtime : Runtime := {|
  repr_of := fun _ => "";
  strip := fun s =>
    string_of_list_ascii
      (rev (lstrip (rev (lstrip (list_ascii_of_string s)))));
  int_of_str := fun s =>
    match s with
    | EmptyString => None
    | _ => option_map Z.of_int (NilZero.int_of_string s)
    end;
  Decimal := string;
  Decimal_of_str := fun s =>
    let digits := match s with String "-" rest => rest | _ => s end in
    let chars := list_ascii_of_string digits in
    if (existsb is_digit chars
        && forallb (fun c => is_digit c || Ascii.eqb c ".") chars
        && Nat.leb (List.length (filter (Ascii.eqb ".") chars)) 1)%bool
    then Some s else None;
  Decimal_lt0 := fun s =>
    match s with
    | String "-" rest =>
        Some (existsb (fun c => is_digit c && negb (Ascii.eqb c "0"))%bool
                      (list_ascii_of_string rest))
    | _ => Some false
    end;
  Decimal_str := fun s => s
|}.

(** A store that answers every call, and one that rejects the product
    insert on the SKU constraint. *)
Definition ids (k : nat) : string := nth k ["prod-1"; "inv-1"; "txn-1"] "".
Definition clock (k : nat) : string := "2024-05-01T10:00:00".

Definition quiet : env :=
  {| fault := fun _ => None; uuid4 := ids; utcnow := clock |}.

Definition sku_unique_violation : exn :=
  IntegrityError "UNIQUE constraint failed: products.sku".

Definition racing : env :=
  {| fault := fun s => match s with
                       | InsertProduct => Some sku_unique_violation
                       | _ => None
                       end;
     uuid4 := ids; utcnow := clock |}.

Definition request : json :=
  JDict [("sku", JStr "A-1"); ("name", JStr "Widget"); ("price", JStr "19.99");
         ("warehouse_id", JInt 7); ("quantity", JInt 5)].

Definition request_fields : fields :=
  {| ImprovedEndpoint.sku := "A-1"; name := "Widget"; warehouse_id := 7;
     quantity := 5; price := "19.99"; description := JStr "";
     supplier_id := JNull; low_stock_threshold := JInt 10;
     created_by := JStr "system" |}.

Definition no_warehouse : db :=
  {| warehouses := []; products := []; inventory := [];
     inventory_transactions := [] |}.

Definition one_warehouse : db :=
  {| warehouses := [7]; products := []; inventory := [];
     inventory_transactions := [] |}.

Definition widget : product_row :=
  {| p_id := "prod-0"; p_sku := "A-1"; p_name := "Old widget";
     p_description := JStr ""; p_price := "5"; p_supplier_id := JNull;
     p_low_stock_threshold := JInt 10; p_created_by := JStr "system";
     p_created_at := "2024-01-01T00:00:00" |}.

Definition sku_taken : db :=
  {| warehouses := [7]; products := [widget]; inventory := [];
     inventory_transactions := [] |}.

(** The tables of [api_implementation.py]. *)

Import ApiImplementation.

Definition acme : company := {| c_id := "acme"; c_is_active := true |}.

Definition item (id name : string) (threshold : Z) (supplier : option string)
  : product :=
  {| ApiImplementation.p_id := id; ApiImplementation.p_sku := id;
     ApiImplementation.p_name := name;
     ApiImplementation.p_price := Real (Float.of_decimal 1999 2);
     ApiImplementation.p_low_stock_threshold := threshold;
     ApiImplementation.p_supplier_id := supplier; p_is_active := true;
     p_company_id := "acme"; p_reorder_quantity := 50 |}.

Definition stocked (product wh : string) (n : Z) : inventory_record :=
  {| ApiImplementation.i_product_id := product;
     ApiImplementation.i_warehouse_id := wh;
     ApiImplementation.i_current_stock := n;
     i_reserved_stock := 0; i_available_stock := n |}.

Definition depot (active : bool) : warehouse :=
  {| w_id := "w1"; w_name := "Depot"; w_is_active := active |}.

Definition vendor : supplier :=
  {| s_id := "s1"; s_name := "Vendor"; s_email := "sales@vendor.test";
     s_phone := "555-0100"; s_is_active := true |}.

Definition sold (product : string) (day n : Z) : sale :=
  {| st_product_id := product; st_warehouse_id := "w1"; sale_day := day;
     quantity_sold := n |}.

(** Two products with one unit each: "Zeta" against a threshold of 1000,
    "Alpha" against 999. *)
Definition two_low : database :=
  {| companies := [acme];
     ApiImplementation.products := [item "p1" "Zeta" 1000 None; item "p2" "Alpha" 999 None];
     ApiImplementation.inventory := [stocked "p1" "w1" 1; stocked "p2" "w1" 1];
     ApiImplementation.warehouses := [depot true];
     suppliers := [];
     sales_transactions := [] |}.

(** One product, two sales of 3 and 5 units on the same day. *)
Definition two_sales_one_day : database :=
  {| companies := [acme];
     ApiImplementation.products := [item "p1" "Bolt" 10 (Some "s1")];
     ApiImplementation.inventory := [stocked "p1" "w1" 2];
     ApiImplementation.warehouses := [depot true];
     suppliers := [vendor];
     sales_transactions := [sold "p1" 95 3; sold "p1" 95 5] |}.

(** One product low on stock in a warehouse that is not active. *)
Definition closed_depot : database :=
  {| companies := [acme];
     ApiImplementation.products := [item "p1" "Bolt" 10 (Some "s1")];
     ApiImplementation.inventory := [stocked "p1" "w1" 2];
     ApiImplementation.warehouses := [depot false];
     suppliers := [vendor];
     sales_transactions := [] |}.

(** A row with [stock] units against a threshold of [threshold], selling
    [avg] units a day. *)
Definition bolt (stock threshold : Z) (avg : Float.float) (price : value) : alert_row :=
  {| r_product_id := "p1"; r_sku := "p1"; r_product_name := "Bolt";
     r_price := price; r_low_stock_threshold := threshold;
     r_warehouse_id := "w1"; r_warehouse_name := "Depot";
     r_current_stock := stock; r_reserved_stock := 0; r_available_stock := stock;
     r_supplier := Some vendor; r_avg_daily_sales := avg;
     r_total_recent_sales := 60 |}.

(** 20 units in stock, 2 sold a day. *)
Definition twenty_left : alert_row :=
  bolt 20 25 (Float.of_int 2) (Real (Float.of_decimal 1999 2)).

(** 35 units in stock; 2, 2 and 3 units sold on three days: 7 / 3 a day. *)
Definition thirty_five_left : alert_row :=
  bolt 35 40 (Float.ratio 7 3) (Int 0).

(** 23 units against a threshold of 80. *)
Definition twenty_three_of_eighty : alert_row :=
  bolt 23 80 Float.zero (Text "19.99").

(** An engine that finds no row. *)
Definition no_rows (statement : string) (params : list value) (d : database)
  : outcome (list alert_row) := Done [].

(** The digits of [n / d] after the point, for [0 <= n < d]. *)
Fixpoint decimals (fuel : nat) (n d : Z) : string :=
  match fuel with
  | O => ""
  | S k => if n =? 0 then ""
           else Py.str_of_int (10 * n / d) ++ decimals k (10 * n mod d) d
  end.

(** A decimal that is not negative, written with a point. *)
Definition decimal_text (x : Q) : string :=
  let n := Qnum x in
  let d := Zpos (Qden x) in
  let frac := decimals 30 (n mod d) d in
  Py.str_of_int (n / d) ++ "." ++ (if String.eqb frac "" then "0" else frac).

(** The least number of decimals, from [k] on, that tell [x] from every
    other float. *)
Fixpoint places (fuel k : nat) (x : Float.float) : nat :=
  match fuel with
  | O => k
  | S f => match Float.compare (py_round x k) x with
           | Eq => k
           | _ => places f (S k) x
           end
  end.

(** The text of a float for the examples: as CPython writes the floats it
    writes without an exponent (from 0.0001 to 10^16). *)
Definition float_str (x : Float.float) : string :=
  match x with
  | S754_nan => "nan"
  | S754_infinity s => if s then "-inf" else "inf"
  | S754_zero s => if s then "-0.0" else "0.0"
  | S754_finite s _ _ =>
      let k := places 20 0 x in
      let scale := 10 ^ Z.of_nat k in
      let n := Py.round_half_even (Qabs (Float.to_Q x) * inject_Z scale) in
      (if s then "-" else "") ++ decimal_text (n # Z.to_pos scale)
  end.

End Scenario.


(** ** Notions for the properties of [add_product] *)

Module AddProductNotions.

Import ImprovedEndpoint.

(** The connection of a request before its first storage call. *)
Definition fresh (d : db) : world := {| store := d; txn := None; seen := [] |}.

(** [field] is missing from the object or null in it (line 37). *)
Definition absent (d : list (string * json)) (field : string) : bool :=
  match lookup field d with
  | Some JNull | None => true
  | Some _ => false
  end.

(** The body is a number or a boolean. *)
Definition scalar (data : json) : bool :=
  match data with
  | JBool _ | JInt _ | JFloat _ => true
  | _ => false
  end.

(** No two products of the store have the same SKU. *)
Definition sku_unique (d : db) : Prop := NoDup (map p_sku (products d)).

(** Every inventory row and every audit row names a product and a
    warehouse of the store. *)
Definition consistent (d : db) : Prop :=
  Forall (fun i => In (i_product_id i) (map p_id (products d))
                   /\ In (i_warehouse_id i) (warehouses d)) (inventory d) /\
  Forall (fun t => In (t_product_id t) (map p_id (products d))
                   /\ In (t_warehouse_id t) (warehouses d))
         (inventory_transactions d).

End AddProductNotions.

(** ** Notions for the properties of the two queries *)

Module QueryNotions.

Import ApiImplementation.

(** A float that is not negative, NaN aside. *)
Definition unsigned (x : Float.float) : Prop :=
  match x with
  | S754_zero s | S754_infinity s | S754_finite s _ _ => s = false
  | S754_nan => True
  end.

(** A float above zero. *)
Definition above_zero (x : Float.float) : Prop :=
  match x with
  | S754_infinity s | S754_finite s _ _ => s = false
  | _ => False
  end.

(** The order of the reorder query on two joined rows: less stock first;
    with equal stock the larger daily_avg first, a pair without sales
    (NULL) being ranked as the engine ranks NULL. *)
Definition reorder_before (nr : null_rank) (d : database) (today : Z)
    (a b : joined) : Prop :=
  let '(pa, ia, _, _) := a in
  let '(pb, ib, _, _) := b in
  i_current_stock ia < i_current_stock ib
  \/ (i_current_stock ia = i_current_stock ib
      /\ match daily_avg d today (p_id pa) (i_warehouse_id ia),
               daily_avg d today (p_id pb) (i_warehouse_id ib) with
         | Some x, Some y => Float.compare x y <> Lt
         | None, None => True
         | None, Some _ => nr = NullsLargest
         | Some _, None => nr = NullsSmallest
         end).

(** The company is known and active. *)
Definition company_active (d : database) (company_id : string) : Prop :=
  exists c, In c (companies d) /\ c_id c = company_id /\ c_is_active c = true.

End QueryNotions.

(** ** More requests and databases *)

Module ScenarioMore.

Import ImprovedEndpoint Scenario.

(** A body without "sku". *)
Definition nameless : list (string * json) :=
  [("name", JStr "Widget"); ("price", JStr "19.99")].

(** A body whose warehouse_id is not a number. *)
Definition worded : list (string * json) :=
  [("sku", JStr "A-1"); ("name", JStr "Widget"); ("price", JStr "19.99");
   ("warehouse_id", JStr "seven"); ("quantity", JInt 5)].

(** A second product for the same warehouse. *)
Definition second_request : json :=
  JDict [("sku", JStr "B-2"); ("name", JStr "Gadget"); ("price", JStr "5");
         ("warehouse_id", JInt 7); ("quantity", JInt 0)].

(** A quantity one beyond the largest INTEGER. *)
Definition huge_request : json :=
  JDict [("sku", JStr "A-1"); ("name", JStr "Widget"); ("price", JStr "19.99");
         ("warehouse_id", JInt 7); ("quantity", JInt (2 ^ 63))].

(** The store after the first creation. *)
Definition stocked_store : db := with_creation quiet request_fields one_warehouse.

End ScenarioMore.

(** * Properties *)

(** ** The product-creation transaction *)

Module AddProductFacts.

Import ImprovedEndpoint.
#[local] Open Scope py_scope.

Section Facts.

Context {rt : Runtime}.
Variable e : env.

Ltac unfold_storage :=
  unfold transaction, bind, execute, begin_transaction, select_warehouse,
    select_product_by_sku, insert_product, insert_inventory, insert_transaction,
    binding, commit, rollback, close, update_txn, raise, ret, lift, observe, view.

Ltac split_calls :=
  repeat match goal with
         | |- context [fault e ?s] =>
             let F := fresh "F" in destruct (fault e s) as [?|] eqn:F; cbn
         | |- context [existsb ?a ?b] => destruct (existsb a b); cbn
         | |- context [bindable ?a] => destruct (bindable a); cbn
         | |- context [Sqlite.int64 ?a] => destruct (Sqlite.int64 a); cbn
         end.

(** The body of the inner [try]: it returns only after the commit of the
    three rows, with every storage call answered; when it raises, nothing
    is committed. *)
Lemma transaction_cases (f : fields) (d : db) (sn : list db) :
  Forall (fun s => s = d \/ s = with_creation e f d) sn ->
  match transaction e f {| store := d; txn := None; seen := sn |} with
  | (Ok r, w) =>
      r = created e f /\ store w = with_creation e f d /\ txn w = None /\
      settled e f d w /\ (forall s, s <> Connect -> fault e s = None)
  | (Raise x, w) => store w = d /\ settled e f d w
  end.
Proof.
  intros Hsn. unfold settled. unfold_storage. cbn. split_calls.
  all: repeat split; auto 10.
  intros []; congruence.
Qed.

(** The inner [try] statement either creates the three rows and answers
    201, or leaves the store as it was and answers 409 or 500 or raises
    [DatabaseError]; it never leaves a transaction open. *)
Lemma create_cases (f : fields) (d : db) (sn : list db) :
  Forall (fun s => s = d \/ s = with_creation e f d) sn ->
  match create e f {| store := d; txn := None; seen := sn |} with
  | (Ok r, w) =>
      txn w = None /\ settled e f d w /\
      ((r = created e f /\ store w = with_creation e f d /\
        forall s, s <> Connect -> fault e s = None)
       \/ ((status r = 409 \/ status r = 500) /\ store w = d))
  | (Raise x, w) =>
      txn w = None /\ settled e f d w /\ store w = d /\ exists m, x = DatabaseError m
  end.
Proof.
  intros Hsn. pose proof (transaction_cases f d sn Hsn) as T.
  unfold create, try_finally, try_except.
  destruct (transaction e f _) as [[r | x] w]; cbn.
  - destruct T as (-> & Hs & Ht & Hseen & Hf). repeat split; auto.
  - destruct T as (Hs & Hseen).
    destruct x; cbn; try (repeat split; eauto; fail).
    destruct (Py.contains _ msg); cbn; repeat split; auto.
Qed.

(** C1: for a request that passes validation, the product row, the
    inventory row and the INITIAL_STOCK transaction row are committed
    together or not at all.  The answer is 201 exactly when the store holds
    the three rows; every other answer leaves the store as it was; a
    failure of any storage call of the transaction leaves the store as it
    was; every committed state a reader can have seen is one of the two;
    no transaction stays open. *)
Theorem creation_is_atomic (data : json) (f : fields) (d : db) :
  parse_request data = Ok (inr f) ->
  let r := fst (run e data d) in
  let w := snd (run e data d) in
  (status r = 201 -> store w = with_creation e f d) /\
  (status r <> 201 -> store w = d) /\
  Forall (fun s => s = d \/ s = with_creation e f d) (seen w) /\
  ((exists s, fault e s <> None) -> status r <> 201 /\ store w = d) /\
  txn w = None /\
  i_product_id (new_inventory e f) = p_id (new_product e f) /\
  t_product_id (new_transaction e f) = p_id (new_product e f) /\
  t_transaction_type (new_transaction e f) = "INITIAL_STOCK".
Proof.
  intros H. unfold run, add_product, try_except.
  unfold bind at 1, lift. rewrite H.
  unfold bind, execute. destruct (fault e Connect) as [x|] eqn:FC.
  - destruct x; cbn; repeat split; auto; try discriminate; intros; lia.
  - cbn. pose proof (create_cases f d [d]) as C.
    destruct (create e f _) as [[r | x] w].
    + cbn. destruct C as (Ht & Hseen & [(-> & Hs & Hf) | ([Hc | Hc] & Hs)]); auto.
      * repeat split; auto.
        -- intros; cbn in *; lia.
        -- destruct H0 as [s Hs']. exfalso. destruct s; try congruence;
           apply Hs'; apply Hf; discriminate.
        -- destruct H0 as [s Hs']. exfalso. destruct s; try congruence;
           apply Hs'; apply Hf; discriminate.
      * repeat split; auto; intros; cbn in *; lia.
      * repeat split; auto; intros; cbn in *; lia.
    + cbn. destruct C as (Ht & Hseen & Hs & m & ->); auto. cbn.
      repeat split; auto; intros; cbn in *; lia.
Qed.

Ltac run_request H :=
  unfold run, add_product, create, try_finally, try_except, on_failure, on_error;
  unfold_storage; rewrite H; cbn.

(** C2: with the warehouse found and the SKU free at the pre-check, an
    insert of the product that the store rejects leaves the store as it
    was; when the rejection is a uniqueness violation the answer is the
    conflict, status 409, and for every other rejection it is 500. *)
Theorem sku_race_is_conflict (data : json) (f : fields) (d : db) (x : exn) :
  parse_request data = Ok (inr f) ->
  fault e Connect = None -> fault e Begin = None ->
  fault e SelectWarehouse = None -> fault e SelectSku = None ->
  existsb (Z.eqb (warehouse_id f)) (warehouses d) = true ->
  existsb (fun p => String.eqb (p_sku p) (sku f)) (products d) = false ->
  fault e InsertProduct = Some x ->
  store (snd (run e data d)) = d /\
  (unique_violation x = true ->
     fst (run e data d)
     = error_response ("Product with SKU " ++ sku f ++ " already exists") 409) /\
  (unique_violation x = false -> status (fst (run e data d)) = 500).
Proof.
  intros H FC FB FW FS Hw Hs FI. run_request H.
  rewrite FC; cbn. rewrite FB; cbn. rewrite FW; cbn. rewrite Hw; cbn.
  rewrite FS; cbn. rewrite Hs; cbn. rewrite FI; cbn.
  destruct x; cbn; try (repeat split; auto; discriminate).
  destruct (Py.contains _ msg); cbn; repeat split; auto; discriminate.
Qed.

(** What the code does when the warehouse of a validated request does not
    exist: the [ValidationError] of line 79 is caught by the
    [except Exception] of line 145 and leaves as a [DatabaseError]. *)
Lemma unknown_warehouse_is_500 (data : json) (f : fields) (d : db) :
  parse_request data = Ok (inr f) ->
  fault e Connect = None -> fault e Begin = None ->
  fault e SelectWarehouse = None ->
  existsb (Z.eqb (warehouse_id f)) (warehouses d) = false ->
  fst (run e data d) = error_response "Internal server error" 500 /\
  store (snd (run e data d)) = d.
Proof.
  intros H FC FB FW Hw. run_request H.
  rewrite FC; cbn. rewrite FB; cbn. rewrite FW; cbn. rewrite Hw; cbn.
  destruct (Sqlite.int64 (warehouse_id f)); cbn; split; reflexivity.
Qed.

(** The same for a SKU that the pre-check of line 82 finds. *)
Lemma known_sku_is_500 (data : json) (f : fields) (d : db) :
  parse_request data = Ok (inr f) ->
  fault e Connect = None -> fault e Begin = None ->
  fault e SelectWarehouse = None -> fault e SelectSku = None ->
  existsb (Z.eqb (warehouse_id f)) (warehouses d) = true ->
  existsb (fun p => String.eqb (p_sku p) (sku f)) (products d) = true ->
  fst (run e data d) = error_response "Internal server error" 500 /\
  store (snd (run e data d)) = d.
Proof.
  intros H FC FB FW FS Hw Hs. run_request H.
  rewrite FC; cbn. rewrite FB; cbn. rewrite FW; cbn. rewrite Hw; cbn.
  rewrite FS; cbn. rewrite Hs; cbn.
  split; reflexivity.
Qed.

(** A [ValidationError] raised before the inner [try] does reach the
    handler of line 153: an empty SKU is answered with 400. *)
Lemma validation_error_is_400 (data : json) (msg : string) (d : db) :
  parse_request data = Raise (ValidationError msg) ->
  run e data d
  = (error_response msg 400, {| store := d; txn := None; seen := [] |}).
Proof. intros H. run_request H. reflexivity. Qed.

End Facts.

Import Scenario.

Lemma creation_is_atomic_witness :
  parse_request request = Ok (inr request_fields) /\
  let r := fst (run quiet request one_warehouse) in
  let w := snd (run quiet request one_warehouse) in
  (status r = 201 -> store w = with_creation quiet request_fields one_warehouse) /\
  (status r <> 201 -> store w = one_warehouse) /\
  Forall (fun s => s = one_warehouse
                   \/ s = with_creation quiet request_fields one_warehouse) (seen w) /\
  ((exists s, fault quiet s <> None) -> status r <> 201 /\ store w = one_warehouse) /\
  txn w = None /\
  i_product_id (new_inventory quiet request_fields)
  = p_id (new_product quiet request_fields) /\
  t_product_id (new_transaction quiet request_fields)
  = p_id (new_product quiet request_fields) /\
  t_transaction_type (new_transaction quiet request_fields) = "INITIAL_STOCK".
Proof.
  split; [reflexivity |].
  apply (creation_is_atomic quiet request request_fields one_warehouse).
  reflexivity.
Defined.

Lemma sku_race_is_conflict_witness :
  fault racing InsertProduct = Some sku_unique_violation /\
  unique_violation sku_unique_violation = true /\
  store (snd (run racing request one_warehouse)) = one_warehouse /\
  (unique_violation sku_unique_violation = true ->
     fst (run racing request one_warehouse)
     = error_response "Product with SKU A-1 already exists" 409) /\
  (unique_violation sku_unique_violation = false ->
     status (fst (run racing request one_warehouse)) = 500).
Proof.
  split; [reflexivity |]. split; [reflexivity |].
  apply (sku_race_is_conflict racing request request_fields one_warehouse
           sku_unique_violation); reflexivity.
Defined.

(** C3: a validated request names warehouse 7 and the store has no
    warehouse.  Nothing is written, but the answer is 500 "Internal server
    error", not the 400 of a [ValidationError]. *)
Theorem unknown_warehouse_answers_500 :
  parse_request request = Ok (inr request_fields) /\
  existsb (Z.eqb (warehouse_id request_fields)) (warehouses no_warehouse) = false /\
  fst (run quiet request no_warehouse) = error_response "Internal server error" 500 /\
  store (snd (run quiet request no_warehouse)) = no_warehouse.
Proof. repeat split; reflexivity. Qed.

(** C4: a validated request carries the SKU "A-1", which a product of the
    store already has.  The pre-check finds it, but the answer is 500
    "Internal server error", not the 400 of a [ValidationError]. *)
Theorem known_sku_answers_500 :
  parse_request request = Ok (inr request_fields) /\
  existsb (fun p => String.eqb (p_sku p) (sku request_fields)) (products sku_taken)
  = true /\
  fst (run quiet request sku_taken) = error_response "Internal server error" 500 /\
  store (snd (run quiet request sku_taken)) = sku_taken.
Proof. repeat split; reflexivity. Qed.

End AddProductFacts.

(** ** ORDER BY *)

Module OrderFacts.

Import ApiImplementation.

Section Laws.

Context {A : Type} (cmp : A -> A -> comparison) (Hcmp : Preorder3 cmp).

Lemma cmp_eq_right x y z : cmp x y = Eq -> cmp z x = cmp z y.
Proof.
  intros H. rewrite (cmp_antisym x z), (cmp_antisym y z).
  now rewrite (cmp_eq_left x y z H).
Qed.

Lemma leb_of_total x y : leb_of cmp x y = false -> leb_of cmp y x = true.
Proof.
  unfold leb_of. rewrite (cmp_antisym x y). destruct (cmp x y); simpl; congruence.
Qed.

Lemma leb_of_trans x y z :
  leb_of cmp x y = true -> leb_of cmp y z = true -> leb_of cmp x z = true.
Proof.
  unfold leb_of. intros Hxy Hyz.
  destruct (cmp x y) eqn:Exy; try discriminate.
  - now rewrite (cmp_eq_left x y z Exy).
  - destruct (cmp y z) eqn:Eyz; try discriminate.
    + now rewrite <- (cmp_eq_right y z x Eyz), Exy.
    + now rewrite (cmp_lt_trans x y z Exy Eyz).
Qed.

Lemma precedes_trans : Transitive (precedes cmp).
Proof. intros x y z. apply leb_of_trans. Qed.

Lemma insert_by_perm x l : Permutation (x :: l) (insert_by cmp x l).
Proof.
  induction l as [| y l IH]; simpl; [reflexivity |].
  destruct (leb_of cmp x y); [reflexivity |].
  rewrite perm_swap. now constructor.
Qed.

Lemma order_by_perm l : Permutation l (order_by cmp l).
Proof.
  induction l as [| x l IH]; simpl; [constructor |].
  rewrite <- insert_by_perm. now constructor.
Qed.

Lemma insert_by_hd x y l :
  precedes cmp y x -> HdRel (precedes cmp) y l ->
  HdRel (precedes cmp) y (insert_by cmp x l).
Proof.
  intros Hyx Hl. destruct l as [| z l]; simpl.
  - now constructor.
  - destruct (leb_of cmp x z); constructor; auto. now inversion Hl.
Qed.

Lemma insert_by_sorted x l :
  Sorted (precedes cmp) l -> Sorted (precedes cmp) (insert_by cmp x l).
Proof.
  induction 1 as [| y l Hl IH Hy]; simpl.
  - repeat constructor.
  - destruct (leb_of cmp x y) eqn:E.
    + repeat constructor; auto.
    + constructor; auto.
      apply insert_by_hd; auto. now apply leb_of_total.
Qed.

(** The result of an ORDER BY is in order, pair by pair. *)
Lemma order_by_sorted l : StronglySorted (precedes cmp) (order_by cmp l).
Proof.
  apply Sorted_StronglySorted; [apply precedes_trans |].
  induction l as [| x l IH]; simpl; [constructor |].
  now apply insert_by_sorted.
Qed.

End Laws.

(** Lexicographic products and keys keep the laws. *)
Lemma lex_preorder {A} (c1 c2 : A -> A -> comparison) :
  Preorder3 c1 -> Preorder3 c2 -> Preorder3 (fun a b => lex (c1 a b) (c2 a b)).
Proof.
  intros P1 P2. split.
  - intros x y. rewrite (cmp_antisym (cmp := c1) x y), (cmp_antisym (cmp := c2) x y).
    destruct (c1 x y); reflexivity.
  - intros x y z. unfold lex.
    destruct (c1 x y) eqn:E1; try discriminate.
    + rewrite (cmp_eq_left (cmp := c1) x y z E1).
      destruct (c1 y z); auto. apply cmp_lt_trans.
    + intros _. destruct (c1 y z) eqn:E2; try discriminate.
      * now rewrite <- (cmp_eq_right c1 P1 y z x E2), E1.
      * now rewrite (cmp_lt_trans (cmp := c1) x y z E1 E2).
  - intros x y z. unfold lex.
    destruct (c1 x y) eqn:E1; try discriminate.
    intros E2. rewrite (cmp_eq_left (cmp := c1) x y z E1).
    now rewrite (cmp_eq_left (cmp := c2) x y z E2).
Qed.

Lemma key_preorder {A B} (key : A -> B) (c : B -> B -> comparison) :
  Preorder3 c -> Preorder3 (fun a b => c (key a) (key b)).
Proof.
  intros P. split; intros.
  - apply cmp_antisym.
  - eapply cmp_lt_trans; eauto.
  - now apply cmp_eq_left.
Qed.

Lemma preorder_ext {A} (c c' : A -> A -> comparison) :
  (forall a b, c a b = c' a b) -> Preorder3 c -> Preorder3 c'.
Proof.
  intros E P. split.
  - intros x y. rewrite <- !E. apply cmp_antisym.
  - intros x y z. rewrite <- !E. apply cmp_lt_trans.
  - intros x y z. rewrite <- !E. apply cmp_eq_left.
Qed.

Lemma flip_preorder {A} (c : A -> A -> comparison) :
  Preorder3 c -> Preorder3 (fun a b => c b a).
Proof.
  intros P. split; intros.
  - apply cmp_antisym.
  - eapply cmp_lt_trans; eauto.
  - apply (cmp_eq_right c P). now rewrite (cmp_antisym y x), H.
Qed.

Lemma Z_preorder : Preorder3 Z.compare.
Proof.
  split; intros.
  - apply Z.compare_antisym.
  - rewrite Z.compare_lt_iff in *. lia.
  - apply Z.compare_eq in H. now subst.
Qed.

Lemma Q_preorder : Preorder3 Qcompare.
Proof.
  split; intros.
  - symmetry. apply Qcompare_antisym.
  - rewrite <- Qlt_alt in *. eapply Qlt_trans; eauto.
  - rewrite <- Qeq_alt in H. now rewrite H.
Qed.

(** The floats are ordered by their class and then by their value. *)
Lemma float_preorder : Preorder3 Float.compare.
Proof.
  apply (preorder_ext
           (fun x y => lex (Float.rank x ?= Float.rank y)
                           (Qcompare (Float.to_Q x) (Float.to_Q y)))).
  - intros x y. unfold Float.compare, lex.
    destruct (Float.rank x ?= Float.rank y); reflexivity.
  - apply lex_preorder.
    + apply (key_preorder Float.rank), Z_preorder.
    + apply (key_preorder Float.to_Q), Q_preorder.
Qed.

Lemma nullable_preorder nr : Preorder3 (compare_nullable nr).
Proof.
  pose proof float_preorder as PQ. split.
  - intros [x|] [y|]; destruct nr; simpl; auto; apply cmp_antisym.
  - intros [x|] [y|] [z|]; destruct nr; simpl; try congruence; apply cmp_lt_trans.
  - intros [x|] [y|] [z|]; destruct nr; simpl; try congruence; apply cmp_eq_left.
Qed.

End OrderFacts.

(** ** The low-stock alerts *)

Module AlertFacts.

Import ApiImplementation QueryNotions.

(** *** Arithmetic of the runtime *)

(** Truncation is the floor on what is not negative. *)
Lemma int_of_float_floor (x : Q) : (0 <= x)%Q -> Py.int_of_float x = Qfloor x.
Proof.
  destruct x as [n d]. unfold Qle, Py.int_of_float, Qfloor; simpl.
  intros H. apply Z.quot_div_nonneg; lia.
Qed.

(** Rounding keeps the sign it is given. *)
Lemma round_aux_sign (s : bool) (m e : Z) (l : location) :
  match binary_round_aux Float.prec Float.emax s m e l with
  | S754_zero s' | S754_infinity s' | S754_finite s' _ _ => s' = s
  | S754_nan => True
  end.
Proof.
  unfold binary_round_aux.
  destruct (shr_fexp _ _ _ _ _) as [mrs' e'].
  destruct (shr_fexp _ _ _ _ _) as [mrs'' e''].
  destruct (shr_m mrs''); auto.
  destruct (_ <=? _); reflexivity.
Qed.

Lemma of_int_unsigned (n : Z) : 0 <= n -> unsigned (Float.of_int n).
Proof.
  intros H. destruct n as [| p | p]; [reflexivity | | lia].
  unfold Float.of_int, binary_normalize, binary_round.
  destruct (shl_align _ _ _) as [mz ez].
  exact (round_aux_sign false (Zpos mz) ez loc_Exact).
Qed.

Lemma div_unsigned (x y : Float.float) :
  unsigned x -> above_zero y -> unsigned (Float.div x y).
Proof.
  destruct x as [sx | sx | | sx mx ex], y as [sy | sy | | sy my ey];
    simpl; try tauto; intros -> ->; try reflexivity.
  destruct (SFdiv_core_binary _ _ _ _ _ _) as [[mz ez] lz].
  exact (round_aux_sign false mz ez lz).
Qed.

Lemma mul_unsigned (x y : Float.float) :
  above_zero x -> above_zero y -> unsigned (Float.mul x y).
Proof.
  destruct x as [sx | sx | | sx mx ex], y as [sy | sy | | sy my ey];
    simpl; try tauto; intros -> ->; try reflexivity.
  exact (round_aux_sign false (Zpos (mx * my)) (ex + ey) loc_Exact).
Qed.

Lemma to_Q_unsigned (x : Float.float) : unsigned x -> (0 <= Float.to_Q x)%Q.
Proof.
  destruct x as [s | s | | s m e]; simpl; try (intros _; apply Qle_refl).
  intros ->. destruct e as [| k | k]; unfold Qle;
    cbn [Float.to_Q inject_Z Qnum Qden]; lia.
Qed.

Lemma to_Q_negative (m : positive) (e : Z) :
  (Float.to_Q (S754_finite true m e) < 0)%Q.
Proof.
  destruct e as [| k | k]; unfold Qlt;
    cbn [Float.to_Q inject_Z Qnum Qden]; lia.
Qed.

(** What is not [<= 0] is NaN or above zero. *)
Lemma not_le_zero (x : Float.float) :
  float_le_int x 0 = false -> x = S754_nan \/ above_zero x.
Proof.
  unfold float_le_int, Float.le, Float.compare.
  destruct x as [s | [] | | [] m e]; simpl; auto; try discriminate.
  pose proof (to_Q_negative m e) as H. rewrite Qlt_alt in H.
  simpl in H. rewrite H. discriminate.
Qed.

Lemma lt_zero_positive (x : Float.float) :
  Float.lt Float.zero x = true -> above_zero x.
Proof.
  destruct x as [s | [] | | [] m e]; try (simpl; auto; discriminate).
  intros H. exfalso. unfold Float.lt, Float.compare in H.
  change (Float.rank Float.zero ?= Float.rank (S754_finite true m e)) with Eq in H.
  cbv iota in H.
  assert (C : (Float.to_Q Float.zero ?= Float.to_Q (S754_finite true m e))%Q = Gt)
    by (apply Qgt_alt, to_Q_negative).
  rewrite C in H. discriminate.
Qed.

(** A quotient of integers of 64 bits is a float. *)
Lemma int_truediv_done (a b : Z) :
  Sqlite.int64 a = true -> b <> 0 -> int_truediv a b = Done (Float.ratio a b).
Proof.
  unfold Sqlite.int64, int_truediv. intros Ha Hb.
  apply andb_true_iff in Ha. destruct Ha as [Ha1 Ha2].
  apply Z.leb_le in Ha1. apply Z.ltb_lt in Ha2.
  apply Z.eqb_neq in Hb. rewrite Hb. apply Z.eqb_neq in Hb.
  assert (B : 2 ^ 63 < overflow) by reflexivity.
  replace (overflow * Z.abs b <=? Z.abs a) with false; [reflexivity |].
  symmetry. apply Z.leb_gt.
  assert (0 < overflow) by reflexivity. nia.
Qed.

(** *** The statement is not prepared *)

(** Whatever the two options, the statement holds a token that SQLite does
    not recognise: the first colon of the cast [::FLOAT]. *)
Lemma alert_statement_rejected (include_zero_stock : bool)
    (warehouse_id : option string) :
  Sqlite.tokenizes (alert_statement include_zero_stock warehouse_id) = false.
Proof.
  unfold alert_statement.
  destruct include_zero_stock, (given warehouse_id); vm_compute; reflexivity.
Qed.

Lemma company_found (d : database) (company_id : string) :
  company_active d company_id ->
  existsb (fun c => String.eqb (c_id c) company_id && c_is_active c) (companies d)
  = true.
Proof.
  intros (c & Hin & Hid & Hact). apply existsb_exists. exists c. split; auto.
  now rewrite Hid, String.eqb_refl, Hact.
Qed.

Section Rows.

Variable float_str : Float.float -> string.
Variable utcnow : nat -> string.

(** *** The body of the loop *)

(** What an alert holds of the row it is made from. *)
Lemma make_alert_inv (days : Z) (now : string) (row : alert_row) (a : alert) :
  make_alert float_str days now row = Done a ->
  exists p c,
    stockout (r_current_stock row) (r_avg_daily_sales row) (r_low_stock_threshold row)
    = Done p /\
    coverage (r_current_stock row) (r_low_stock_threshold row) = Done c /\
    days_until_stockout (sales a) = fst p /\
    urgency_level a = snd p /\
    stock_coverage_ratio (stock a) = py_round c 1 /\
    current_stock (stock a) = r_current_stock row /\
    price a = if value_truthy (r_price row)
              then Some (value_str float_str (r_price row)) else None.
Proof.
  unfold make_alert.
  destruct (stockout _ _ _) as [p | e]; [| discriminate].
  destruct (coverage _ _) as [c | e]; [| discriminate].
  cbn [and_then]. intros H. inversion H. exists p, c. cbn. repeat split.
Qed.

(** C6: in every alert the projection follows the three cases in order.
    No stock gives 0 days and CRITICAL whatever the sales.  Otherwise,
    average daily sales that are not above zero give no number of days,
    and LOW when the stock exceeds half the threshold, else MEDIUM.
    Otherwise, the stock being a positive count, the days are the floor of
    the quotient of the stock by the average daily sales, the quotient
    being the float the division gives, with CRITICAL up to 7 days, HIGH up
    to 14, MEDIUM up to 30 and LOW beyond. *)
Theorem stockout_policy (days : Z) (now : string) (row : alert_row) (a : alert) :
  make_alert float_str days now row = Done a ->
  let current_stock := r_current_stock row in
  let avg_daily_sales := r_avg_daily_sales row in
  let threshold := r_low_stock_threshold row in
  (current_stock = 0 ->
     days_until_stockout (sales a) = Some 0 /\ urgency_level a = CRITICAL) /\
  (current_stock <> 0 -> float_le_int avg_daily_sales 0 = true ->
     days_until_stockout (sales a) = None /\
     urgency_level a
     = if int_gt_float current_stock (Float.mul (Float.of_int threshold) Float.half)
       then LOW else MEDIUM) /\
  (0 < current_stock -> float_le_int avg_daily_sales 0 = false ->
     let q := Float.div (Float.of_int current_stock) avg_daily_sales in
     let d := Qfloor (Float.to_Q q) in
     Float.is_finite q = true /\
     days_until_stockout (sales a) = Some d /\
     urgency_level a = if d <=? 7 then CRITICAL
                       else if d <=? 14 then HIGH
                       else if d <=? 30 then MEDIUM
                       else LOW).
Proof.
  intros H. destruct (make_alert_inv _ _ _ _ H) as (p & c & Hp & _ & Hd & Hu & _).
  cbv zeta. rewrite Hd, Hu. clear H Hd Hu c. unfold stockout in Hp.
  split; [| split].
  - intros Z0. rewrite Z0 in Hp. cbn in Hp. inversion Hp. split; reflexivity.
  - intros NZ Hle. apply Z.eqb_neq in NZ. rewrite NZ, Hle in Hp.
    unfold float_of_int in Hp.
    destruct (Z.abs (r_low_stock_threshold row) <? overflow); [| discriminate].
    cbn [and_then] in Hp. inversion Hp. split; reflexivity.
  - intros Pos Hle.
    assert (NZ : (r_current_stock row =? 0) = false) by (apply Z.eqb_neq; lia).
    rewrite NZ, Hle in Hp. unfold float_of_int, float_truediv in Hp.
    destruct (Z.abs (r_current_stock row) <? overflow); [| discriminate].
    cbn [and_then] in Hp.
    destruct (Float.is_zero (r_avg_daily_sales row)); [discriminate |].
    cbn [and_then] in Hp.
    assert (U : unsigned (Float.div (Float.of_int (r_current_stock row))
                                    (r_avg_daily_sales row))).
    { destruct (not_le_zero _ Hle) as [N | A].
      - rewrite N. now destruct (Float.of_int (r_current_stock row)).
      - apply div_unsigned; [apply of_int_unsigned; lia | exact A]. }
    set (q := Float.div (Float.of_int (r_current_stock row)) (r_avg_daily_sales row))
      in *.
    assert (F : forall x, int_of_float q = Done x ->
                          Float.is_finite q = true /\ x = Qfloor (Float.to_Q q)).
    { intros x Hx. pose proof (to_Q_unsigned q U) as Hq.
      apply int_of_float_floor in Hq.
      destruct q; try discriminate; cbn in Hx; inversion Hx; split;
        try reflexivity; now rewrite <- Hq. }
    destruct (int_of_float q) as [x | e]; [| discriminate].
    destruct (F x eq_refl) as [Fin ->].
    cbn [and_then] in Hp. inversion Hp. repeat split; assumption.
Qed.

(** C9: for a stock that is an INTEGER of the store the ratio is always
    defined, whatever the threshold: it is the float of current stock over
    the larger of threshold and 1, times 100, and the alert holds it
    rounded to one decimal.  The ratio never keeps an alert from being
    made, and it is the same whatever the sales velocity, which is what the
    urgency is computed from. *)
Theorem coverage_ratio_defined (days : Z) (now : string) (row : alert_row) :
  Sqlite.int64 (r_current_stock row) = true ->
  let x := Float.mul (Float.ratio (r_current_stock row)
                                  (Z.max (r_low_stock_threshold row) 1))
                     (Float.of_int 100) in
  coverage (r_current_stock row) (r_low_stock_threshold row) = Done x /\
  (forall p,
     stockout (r_current_stock row) (r_avg_daily_sales row) (r_low_stock_threshold row)
     = Done p ->
     exists a, make_alert float_str days now row = Done a
               /\ stock_coverage_ratio (stock a) = py_round x 1) /\
  (forall avg now' a',
     make_alert float_str days now' (with_avg_daily_sales avg row) = Done a' ->
     stock_coverage_ratio (stock a') = py_round x 1).
Proof.
  intros I. cbv zeta.
  assert (C : coverage (r_current_stock row) (r_low_stock_threshold row)
              = Done (Float.mul (Float.ratio (r_current_stock row)
                                             (Z.max (r_low_stock_threshold row) 1))
                                (Float.of_int 100))).
  { unfold coverage. rewrite int_truediv_done; [reflexivity | exact I | lia]. }
  split; [exact C |]. split.
  - intros p Hp. unfold make_alert. rewrite Hp, C. cbn [and_then].
    eexists. split; reflexivity.
  - intros avg now' a' H.
    destruct (make_alert_inv _ _ _ _ H) as (p & c & _ & Hc & _ & _ & Hr & _).
    change (r_current_stock (with_avg_daily_sales avg row))
      with (r_current_stock row) in Hc.
    change (r_low_stock_threshold (with_avg_daily_sales avg row))
      with (r_low_stock_threshold row) in Hc.
    rewrite C in Hc. injection Hc as <-. exact Hr.
Qed.

(** C10: the price of an alert is null when the stored price is falsy,
    that is NULL, the integer 0, a real zero or the empty text, and
    otherwise the text of the stored value; a stored 0 is reported as null,
    not as "0". *)
Theorem price_is_null_when_falsy (days : Z) (now : string) (row : alert_row)
    (a : alert) :
  make_alert float_str days now row = Done a ->
  (value_truthy (r_price row) = false -> price a = None) /\
  (value_truthy (r_price row) = true ->
     price a = Some (value_str float_str (r_price row))) /\
  (value_truthy (r_price row) = false <->
     r_price row = Null \/ r_price row = Int 0
     \/ (exists s, r_price row = Real (S754_zero s)) \/ r_price row = Text "") /\
  (r_price row = Int 0 -> price a = None).
Proof.
  intros H. destruct (make_alert_inv _ _ _ _ H) as (p & c & _ & _ & _ & _ & _ & _ & Hp).
  rewrite Hp. repeat split.
  - now intros ->.
  - now intros ->.
  - destruct (r_price row) as [| n | x | s]; simpl; auto.
    + rewrite negb_false_iff, Z.eqb_eq. intros ->. auto.
    + destruct x; simpl; try discriminate. eauto 6.
    + rewrite negb_false_iff, String.eqb_eq. intros ->. auto.
  - intros [-> | [-> | [(s & ->) | ->]]]; reflexivity.
  - now intros ->.
Qed.

(** *** The loop and the summary *)

Lemma make_alerts_related (days : Z) (rows : list alert_row) :
  forall k alerts,
    make_alerts float_str utcnow days k rows = Done alerts ->
    Forall2 (fun row a => exists now, make_alert float_str days now row = Done a)
            rows alerts.
Proof.
  induction rows as [| row rows IH]; intros k alerts; simpl.
  - intros H. inversion H. constructor.
  - destruct (make_alert float_str days (utcnow k) row) as [a | e] eqn:Ha;
      [| discriminate].
    cbn [and_then].
    destruct (make_alerts float_str utcnow days (S k) rows) as [l | e] eqn:Hl;
      [| discriminate].
    cbn [and_then]. intros H. inversion H; subst. constructor; eauto.
Qed.

Lemma Forall2_in_right {A B} (P : A -> B -> Prop) l l' b :
  Forall2 P l l' -> In b l' -> exists a, In a l /\ P a b.
Proof.
  induction 1 as [| x y l l' Hxy H IH]; simpl; [contradiction |].
  intros [<- | Hin]; [eauto |]. destruct (IH Hin) as (a & Ha & Hp). eauto.
Qed.

Lemma filter_length_sub {A} (f g : A -> bool) (l : list A) :
  (forall x, In x l -> f x = true -> g x = true) ->
  (List.length (filter f l) <= List.length (filter g l))%nat.
Proof.
  induction l as [| x l IH]; simpl; intros H; [lia |].
  assert (IH' := IH (fun y Hy => H y (or_intror Hy))).
  destruct (f x) eqn:F.
  - rewrite (H x (or_introl eq_refl) F). simpl. lia.
  - destruct (g x); simpl; lia.
Qed.

Lemma filter_length_disjoint {A} (f g : A -> bool) (l : list A) :
  (forall x, f x = true -> g x = false) ->
  (List.length (filter f l) + List.length (filter g l) <= List.length l)%nat.
Proof.
  intros H. induction l as [| x l IH]; simpl; [lia |].
  destruct (f x) eqn:F.
  - rewrite (H x F). simpl. lia.
  - destruct (g x); simpl; lia.
Qed.

(** An alert without stock is CRITICAL. *)
Lemma no_stock_is_critical (days : Z) (now : string) (row : alert_row) (a : alert) :
  make_alert float_str days now row = Done a ->
  current_stock (stock a) = 0 -> urgency_level a = CRITICAL.
Proof.
  intros H Z0. destruct (make_alert_inv _ _ _ _ H) as (p & c & Hp & _ & _ & Hu & _ & Hs & _).
  rewrite Hu. rewrite Hs in Z0. unfold stockout in Hp. rewrite Z0 in Hp.
  cbn in Hp. now inversion Hp.
Qed.

(** X18: the loop makes one alert for each row, and the summary counts
    them: no more alerts are out of stock than are CRITICAL, the CRITICAL
    and the HIGH ones together are no more than all, and no more are
    without supplier than there are. *)
Theorem summary_counts (days : Z) (k : nat) (rows : list alert_row)
    (alerts : list alert) :
  make_alerts float_str utcnow days k rows = Done alerts ->
  let s := summarize alerts in
  total_alerts s = List.length rows /\
  (zero_stock_products s <= critical_alerts s)%nat /\
  (critical_alerts s + high_priority_alerts s <= total_alerts s)%nat /\
  (products_without_supplier s <= total_alerts s)%nat.
Proof.
  intros H. apply make_alerts_related in H. unfold summarize. cbn. repeat split.
  - symmetry. exact (Forall2_length H).
  - apply filter_length_sub. intros a Ha Hz. apply Z.eqb_eq in Hz.
    destruct (Forall2_in_right _ _ _ _ H Ha) as (row & _ & now & Hmk).
    now rewrite (no_stock_is_critical _ _ _ _ Hmk Hz).
  - apply filter_length_disjoint. intros a. now destruct (urgency_level a).
  - apply filter_length_le.
Qed.

(** *** The handler *)

Variable engine : string -> list value -> database -> outcome (list alert_row).

(** X26: a request that passes the three checks is never answered with
    alerts: the engine cannot prepare the statement, whatever the tables
    hold and whatever the options, and the answer is 500 "Database error
    occurred". *)
Theorem alerts_are_never_answered (d : database) (company_id : string)
    (days_lookback : Z) (include_zero_stock : bool) (warehouse_id : option string) :
  company_id <> "" -> 1 <= days_lookback <= 365 -> company_active d company_id ->
  get_low_stock_alerts float_str utcnow engine d company_id days_lookback
    include_zero_stock warehouse_id
  = Failure "Database error occurred" 500.
Proof.
  intros Hc Hd Ha. unfold get_low_stock_alerts, cursor_execute.
  apply String.eqb_neq in Hc. rewrite Hc.
  replace ((days_lookback <=? 0) || (365 <? days_lookback))%bool with false
    by (symmetry; apply orb_false_iff; split; [apply Z.leb_gt | apply Z.ltb_ge]; lia).
  rewrite (company_found _ _ Ha), alert_statement_rejected. reflexivity.
Qed.

End Rows.

Import Scenario.

(** C5: a request for the alerts of "acme" with the defaults.  The text
    up to the ORDER BY is made of tokens that SQLite recognises; the
    ORDER BY clause holds the cast [::FLOAT], which it does not.  So the
    statement is not prepared, whatever the engine would answer to it, and
    the request is answered 500 "Database error occurred": no list of
    alerts, in any order, is sent. *)
Theorem alert_order_is_rejected
    (engine : string -> list value -> database -> outcome (list alert_row)) :
  Sqlite.tokenizes base_query = true /\
  Py.contains "::FLOAT" order_clause = true /\
  Sqlite.tokenizes (alert_statement true None) = false /\
  get_low_stock_alerts float_str clock engine two_low "acme" 30 true None
  = Failure "Database error occurred" 500.
Proof. repeat split; vm_compute; reflexivity. Qed.

Lemma stockout_policy_witness :
  exists a,
    make_alert float_str 30 (clock 0) twenty_left = Done a
    /\ 0 < r_current_stock twenty_left
    /\ float_le_int (r_avg_daily_sales twenty_left) 0 = false
    /\ days_until_stockout (sales a) = Some 10 /\ urgency_level a = HIGH.
Proof.
  assert (R : exists a, make_alert float_str 30 (clock 0) twenty_left = Done a)
    by (eexists; vm_compute; reflexivity).
  destruct R as [a R]. exists a. split; [exact R |].
  split; [reflexivity |]. split; [reflexivity |].
  destruct (stockout_policy float_str 30 (clock 0) twenty_left a R) as (_ & _ & H3).
  destruct H3 as (_ & Hd & Hu); [reflexivity | reflexivity |].
  rewrite Hd, Hu. split; vm_compute; reflexivity.
Defined.

Lemma coverage_ratio_defined_witness :
  Sqlite.int64 (r_current_stock twenty_three_of_eighty) = true /\
  coverage 23 80 = Done (Float.mul (Float.ratio 23 80) (Float.of_int 100)) /\
  exists a,
    make_alert float_str 30 (clock 0) twenty_three_of_eighty = Done a
    /\ stock_coverage_ratio (stock a) = Float.of_decimal 287 1.
Proof.
  split; [reflexivity |].
  destruct (coverage_ratio_defined float_str 30 (clock 0) twenty_three_of_eighty
              eq_refl) as (C & E & _).
  split; [exact C |].
  destruct (E (None, MEDIUM) eq_refl) as (a & Ha & Hr).
  exists a. split; [exact Ha |]. rewrite Hr. vm_compute. reflexivity.
Defined.

Lemma price_is_null_when_falsy_witness :
  exists a,
    make_alert float_str 30 (clock 0) thirty_five_left = Done a
    /\ r_price thirty_five_left = Int 0 /\ price a = None.
Proof.
  assert (R : exists a, make_alert float_str 30 (clock 0) thirty_five_left = Done a)
    by (eexists; vm_compute; reflexivity).
  destruct R as [a R]. exists a. split; [exact R |]. split; [reflexivity |].
  destruct (price_is_null_when_falsy float_str 30 (clock 0) thirty_five_left a R)
    as (_ & _ & _ & H).
  apply H. reflexivity.
Defined.

Lemma summary_counts_witness :
  exists alerts,
    make_alerts float_str clock 30 0 [twenty_left; thirty_five_left] = Done alerts /\
    total_alerts (summarize alerts) = 2%nat /\
    (zero_stock_products (summarize alerts) <= critical_alerts (summarize alerts))%nat /\
    (critical_alerts (summarize alerts) + high_priority_alerts (summarize alerts)
     <= total_alerts (summarize alerts))%nat /\
    (products_without_supplier (summarize alerts) <= total_alerts (summarize alerts))%nat.
Proof.
  assert (R : exists alerts,
             make_alerts float_str clock 30 0 [twenty_left; thirty_five_left]
             = Done alerts)
    by (eexists; vm_compute; reflexivity).
  destruct R as [alerts R]. exists alerts. split; [exact R |].
  exact (summary_counts float_str clock 30 0 _ alerts R).
Defined.

Lemma alerts_are_never_answered_witness :
  "acme" <> "" /\ 1 <= 30 <= 365 /\ company_active two_low "acme" /\
  get_low_stock_alerts float_str clock no_rows two_low "acme" 30 false (Some "w1")
  = Failure "Database error occurred" 500.
Proof.
  assert (C : "acme" <> "") by discriminate.
  assert (D : 1 <= 30 <= 365) by lia.
  assert (A : company_active two_low "acme")
    by (exists acme; simpl; auto).
  split; [exact C |]. split; [exact D |]. split; [exact A |].
  exact (alerts_are_never_answered float_str clock no_rows two_low "acme" 30 false
           (Some "w1") C D A).
Defined.

(** The worked examples of the projection. *)
Example no_stock :
  stockout 0 (Float.ratio 7 2) 10 = Done (Some 0, CRITICAL).
Proof. reflexivity. Qed.

Example no_sales_half_threshold :
  stockout 5 Float.zero 10 = Done (None, MEDIUM)
  /\ stockout 8 Float.zero 10 = Done (None, LOW).
Proof. split; vm_compute; reflexivity. Qed.

Example twenty_at_two_a_day :
  stockout 20 (Float.of_int 2) 25 = Done (Some 10, HIGH).
Proof. vm_compute. reflexivity. Qed.

(** The quotients are those of the floats: 35 over 7 / 3 is
    14.999999999999998, 25 over 5 / 3 is 15.0. *)
Example quotients_of_floats :
  stockout 35 (Float.ratio 7 3) 40 = Done (Some 14, HIGH)
  /\ float_str (Float.div (Float.of_int 35) (Float.ratio 7 3)) = "14.999999999999998"
  /\ stockout 25 (Float.ratio 5 3) 40 = Done (Some 15, MEDIUM)
  /\ float_str (Float.div (Float.of_int 25) (Float.ratio 5 3)) = "15.0".
Proof. repeat split; vm_compute; reflexivity. Qed.

(** The ratio is rounded from the float: 23 of 80 is shown as 28.7, 1 of
    2000 as 0.1. *)
Example ratios_of_floats :
  and_then (coverage 23 80) (fun x => Done (py_round x 1))
  = Done (Float.of_decimal 287 1)
  /\ and_then (coverage 1 2000) (fun x => Done (py_round x 1))
     = Done (Float.of_decimal 1 1)
  /\ float_str (Float.mul (Float.ratio 23 80) (Float.of_int 100))
     = "28.749999999999996".
Proof. repeat split; vm_compute; reflexivity. Qed.

End AlertFacts.

(** ** The reorder suggestions *)

Module ReorderFacts.

Import ApiImplementation OrderFacts.

Lemma order_by_in {A} (cmp : A -> A -> comparison) (x : A) (l : list A) :
  In x (order_by cmp l) <-> In x l.
Proof.
  split; apply Permutation_in;
    [symmetry |]; apply order_by_perm.
Qed.

(** What the WHERE clause of the reorder query asks of a joined row. *)
Lemma reorder_where_spec (company_id : string) (p : product)
    (i : inventory_record) (w : warehouse) (s : option supplier) :
  reorder_where company_id (p, i, w, s) = true <->
  p_company_id p = company_id /\
  i_current_stock i <= p_low_stock_threshold p /\
  p_is_active p = true /\
  exists s0, s = Some s0 /\ s_is_active s0 = true.
Proof.
  unfold reorder_where.
  rewrite !andb_true_iff, String.eqb_eq, Z.leb_le.
  destruct s as [s0 |]; split.
  - intros [[[H1 H2] H3] H4]. eauto 8.
  - intros (H1 & H2 & H3 & s1 & E & H4). inversion E; subst. auto.
  - intros [_ H]. discriminate.
  - intros (_ & _ & _ & s1 & E & _). discriminate.
Qed.

(** The reorder WHERE clause does not look at the warehouse. *)
Lemma reorder_where_any_warehouse (company_id : string) (p : product)
    (i : inventory_record) (w w' : warehouse) (s : option supplier) :
  reorder_where company_id (p, i, w, s) = reorder_where company_id (p, i, w', s).
Proof. reflexivity. Qed.

Import Scenario.

(** C7: one product sold 3 and 5 units on the same day.  Its average per
    day with a sale is 8, which asks for 240 units; the query averages the
    two sales to 4 and suggests 120. *)
Theorem reorder_averages_per_sale (nr : null_rank) :
  map suggested_order_quantity
      (get_reorder_suggestions nr two_sales_one_day 100 "acme") = [120] /\
  daily_sales (recent_sales two_sales_one_day 100 30 "p1" "w1") = Done [8] /\
  and_then (avg_daily_sales two_sales_one_day 100 30 "p1" "w1")
           (fun avg => Done (cast_integer (Float.mul avg (Float.of_int 30))))
  = Done 240 /\
  daily_avg two_sales_one_day 100 "p1" "w1" = Some (Float.ratio 8 2).
Proof. destruct nr; repeat split; vm_compute; reflexivity. Qed.

(** C8: one product of the company, active, with 2 units against a
    threshold of 10 and an active supplier, in a warehouse that is not
    active.  The WHERE clause of the alert statement lets no row pass; the
    reorder query lists the product. *)
Theorem reorder_lists_inactive_warehouse (nr : null_rank) :
  map w_is_active (ApiImplementation.warehouses closed_depot) = [false] /\
  low_stock_rows closed_depot "acme" true None = [] /\
  map sg_product_id (get_reorder_suggestions nr closed_depot 100 "acme") = ["p1"].
Proof. destruct nr; repeat split; vm_compute; reflexivity. Qed.

(** The averages are floats: 49 units in three sales average to
    16.333333333333332, and 30 times that is truncated to 489. *)
Example average_of_floats :
  sql_avg [49; 0; 0] = Some (Float.ratio 49 3)
  /\ float_str (Float.mul (Float.ratio 49 3) (Float.of_int 30)) = "489.99999999999994"
  /\ suggested_quantity (sql_avg [49; 0; 0]) 50 = 489.
Proof. repeat split; vm_compute; reflexivity. Qed.

End ReorderFacts.

(** ** Further properties of [add_product] *)

Module AddProductMore.

Import ImprovedEndpoint AddProductNotions.
#[local] Open Scope py_scope.

Lemma prefix_app (s1 s2 : string) :
  prefix s1 s2 = true <-> exists post, s2 = s1 ++ post.
Proof.
  revert s1. induction s2 as [| b s2 IH]; intros [| a s1]; simpl.
  - split; eauto.
  - split; [discriminate | intros [post H]; discriminate].
  - split; eauto.
  - destruct (Ascii.ascii_dec a b) as [-> | N].
    + rewrite IH. split; intros [post H]; exists post;
        [now rewrite H | now inversion H].
    + split; [discriminate | intros [post H]; inversion H; congruence].
Qed.

(** [needle in hay] holds exactly when [hay] is some text, [needle], some
    text. *)
Lemma contains_substring (needle hay : string) :
  Py.contains needle hay = true <-> exists pre post, hay = pre ++ needle ++ post.
Proof.
  induction hay as [| c hay IH].
  - change (Py.contains needle "") with (prefix needle "" || false)%bool.
    rewrite orb_false_r, prefix_app. split.
    + intros [post H]. exists "", post. exact H.
    + intros (pre & post & H). destruct pre; [eauto | discriminate].
  - change (Py.contains needle (String c hay))
      with (prefix needle (String c hay) || Py.contains needle hay)%bool.
    rewrite orb_true_iff, prefix_app, IH. split.
    + intros [[post H] | (pre & post & H)].
      * exists "", post. exact H.
      * exists (String c pre), post. simpl. now rewrite H.
    + intros (pre & post & H). destruct pre as [| c' pre]; simpl in H.
      * left. eauto.
      * right. inversion H. eauto.
Qed.

Section Facts.

Context {rt : Runtime}.
Variable e : env.

Lemma first_missing_find (d0 : list (string * json)) (fields : list string) :
  first_missing fields (JDict d0) = Ok (find (absent d0) fields).
Proof.
  induction fields as [| field rest IH]; simpl; [reflexivity |].
  unfold absent at 1. destruct (lookup field d0) as [[] |]; simpl; auto.
Qed.

Ltac unfold_calls :=
  unfold transaction, bind, execute, begin_transaction, select_warehouse,
    select_product_by_sku, insert_product, insert_inventory, insert_transaction,
    binding, commit, rollback, close, update_txn, raise, ret, lift, observe, view.

Ltac case_calls :=
  repeat match goal with
         | |- context [fault e ?s] =>
             let F := fresh "F" in destruct (fault e s) as [?|] eqn:F; cbn
         | |- context [existsb ?a ?b] =>
             let E := fresh "E" in destruct (existsb a b) eqn:E; cbn
         | |- context [bindable ?a] =>
             let B := fresh "B" in destruct (bindable a) eqn:B; cbn
         | |- context [Sqlite.int64 ?a] =>
             let B := fresh "B" in destruct (Sqlite.int64 a) eqn:B; cbn
         end.

(** The inner [try] body returns only when both checks passed and every
    storage call was answered; an exception it raises is one the store
    raised, one of the two [ValidationError]s, or a value that cannot be
    bound. *)
Lemma transaction_outcome (f : fields) (d : db) (sn : list db) :
  match transaction e f {| store := d; txn := None; seen := sn |} with
  | (Ok r, w) =>
      r = created e f /\ store w = with_creation e f d /\
      existsb (Z.eqb (warehouse_id f)) (warehouses d) = true /\
      existsb (fun p => String.eqb (p_sku p) (sku f)) (products d) = false /\
      (forall s, s <> Connect -> fault e s = None)
  | (Raise x, w) =>
      store w = d /\
      ((exists s, fault e s = Some x) \/ (exists m, x = ValidationError m)
       \/ (exists v, x = unbound v))
  end.
Proof.
  unfold_calls. cbn. case_calls.
  all: repeat split; eauto 10.
  all: try (right; right; exists (JInt 0); reflexivity).
  intros []; congruence.
Qed.

Lemma create_outcome (f : fields) (d : db) (sn : list db) :
  match create e f {| store := d; txn := None; seen := sn |} with
  | (Ok r, w) =>
      (r = created e f /\ store w = with_creation e f d /\
       existsb (Z.eqb (warehouse_id f)) (warehouses d) = true /\
       existsb (fun p => String.eqb (p_sku p) (sku f)) (products d) = false /\
       (forall s, s <> Connect -> fault e s = None))
      \/ (store w = d /\
          ((status r = 409 /\
            exists s msg, fault e s = Some (IntegrityError msg)
                          /\ Py.contains "UNIQUE constraint failed" msg = true)
           \/ status r = 500))
  | (Raise x, w) => store w = d /\ exists m, x = DatabaseError m
  end.
Proof.
  pose proof (transaction_outcome f d sn) as T.
  unfold create, try_finally, try_except.
  destruct (transaction e f _) as [[r | x] w]; cbn.
  - left. exact T.
  - destruct T as (Hs & Hx).
    destruct x; cbn; try (split; eauto; fail).
    destruct (Py.contains _ msg) eqn:C; cbn; right; split; auto.
    left. split; auto.
    destruct Hx as [[s Hs'] | [[m Hm] | [v Hu]]]; try discriminate; [eauto |].
    destruct v; discriminate.
Qed.

Ltac break_parse H :=
  unfold parse_request, parse_price, rbind in H;
  repeat match type of H with
         | context [match ?x with _ => _ end] =>
             let E := fresh "E" in destruct x eqn:E; try discriminate
         end.

(** An early [return] of the validation is a 400. *)
Lemma early_return_is_400 (data : json) (r : response) :
  parse_request data = Ok (inl r) -> status r = 400.
Proof.
  intros H. break_parse H.
  all: inversion H; reflexivity.
Qed.

(** What a request does to the store and how it is answered. *)
Lemma run_outcome (data : json) (d : db) :
  let r := fst (run e data d) in
  let w := snd (run e data d) in
  ((forall f, parse_request data <> Ok (inr f)) /\ w = fresh d /\
     (status r = 400 \/ status r = 500))
  \/ (exists f, parse_request data = Ok (inr f) /\
        ((r = created e f /\ store w = with_creation e f d /\
          existsb (Z.eqb (warehouse_id f)) (warehouses d) = true /\
          existsb (fun p => String.eqb (p_sku p) (sku f)) (products d) = false /\
          (forall s, fault e s = None))
         \/ (store w = d /\
             ((status r = 400 /\ exists m, fault e Connect = Some (ValidationError m))
              \/ (status r = 409 /\
                  exists s msg, fault e s = Some (IntegrityError msg)
                    /\ Py.contains "UNIQUE constraint failed" msg = true)
              \/ status r = 500)))).
Proof.
  cbv zeta. unfold run, add_product, try_except. unfold bind at 1, lift.
  destruct (parse_request data) as [[early | f] | x] eqn:P.
  - left. cbn. repeat split; [congruence |].
    left. now apply (early_return_is_400 data).
  - right. exists f. split; [reflexivity |].
    unfold bind, execute. destruct (fault e Connect) as [x |] eqn:FC.
    + right. destruct x; cbn; split; eauto.
    + cbn. pose proof (create_outcome f d [d]) as C.
      destruct (create e f _) as [[r | x] w]; cbn.
      * destruct C as [(-> & Hs & Hw & Hk & Hf) | (Hs & [H409 | H500])].
        -- left. repeat split; auto. intros []; auto; apply Hf; discriminate.
        -- right. split; auto.
        -- right. split; auto.
      * destruct C as (Hs & m & ->). cbn. right. split; auto.
  - left. split; [congruence |]. destruct x; cbn; auto.
Qed.

(** X1: a request that does not pass validation makes no storage call: no
    connection is opened, nothing is read or written. *)
Theorem rejected_request_touches_nothing (data : json) (d : db) :
  (forall f, parse_request data <> Ok (inr f)) ->
  snd (run e data d) = fresh d /\
  (status (fst (run e data d)) = 400 \/ status (fst (run e data d)) = 500).
Proof.
  intros H. destruct (run_outcome data d) as [(_ & Hw & Hr) | (f & P & _)]; auto.
  now destruct (H f).
Qed.

(** X2: when the body is a non-empty object, the answer names the first
    field, in the order sku, name, price, warehouse_id, quantity, that is
    missing or null, with status 400. *)
Theorem first_missing_field_is_named (d0 : list (string * json)) (field : string)
    (d : db) :
  d0 <> [] ->
  find (absent d0) required_fields = Some field ->
  run e (JDict d0) d
  = (error_response ("Missing required field: " ++ field) 400, fresh d).
Proof.
  intros Hne Hfind. unfold run, add_product, try_except. unfold bind at 1, lift.
  unfold parse_request. rewrite first_missing_find, Hfind.
  destruct d0; [congruence | reflexivity].
Qed.

(** X3: what passes validation: the SKU and the name are not empty once
    stripped, the quantity is not negative, the price is a decimal that is
    not below zero. *)
Theorem validated_fields (data : json) (f : fields) :
  parse_request data = Ok (inr f) ->
  sku f <> "" /\ name f <> "" /\ 0 <= quantity f /\ Decimal_lt0 (price f) = Some false.
Proof.
  intros H. break_parse H.
  all: inversion H; subst; cbn.
  all: repeat match goal with
              | E : String.eqb _ _ = false |- _ => apply String.eqb_neq in E
              | E : (_ <? _) = false |- _ => apply Z.ltb_ge in E
              end.
  all: repeat split; auto.
  all: match goal with
       | E : context [Decimal_of_str ?t] |- _ =>
           destruct (Decimal_of_str t) as [p |]; try discriminate;
           destruct (Decimal_lt0 p) as [[] |] eqn:L; try discriminate;
           now inversion E; subst
       end.
Qed.


(** X5: a request whose SKU is already in the store never creates
    anything, whatever the store answers: the answer is not 201 and the
    store is as it was. *)
Theorem duplicate_sku_never_creates (data : json) (f : fields) (d : db) :
  parse_request data = Ok (inr f) ->
  existsb (fun p => String.eqb (p_sku p) (sku f)) (products d) = true ->
  status (fst (run e data d)) <> 201 /\ store (snd (run e data d)) = d.
Proof.
  intros H Hs.
  destruct (run_outcome data d) as [(Hn & _) | (f' & P & [C | (Hd & St)])].
  - now destruct (Hn f).
  - rewrite H in P. inversion P; subst f'. destruct C as (_ & _ & _ & Hk & _).
    congruence.
  - split; auto. destruct St as [[St _] | [[St _] | St]]; rewrite St; discriminate.
Qed.

(** X6: a store in which no two products share a SKU stays so after any
    request. *)
Theorem sku_uniqueness_is_kept (data : json) (d : db) :
  sku_unique d -> sku_unique (store (snd (run e data d))).
Proof.
  intros U.
  destruct (run_outcome data d) as [(_ & Hw & _) | (f & P & [C | (Hd & _)])].
  - now rewrite Hw.
  - destruct C as (_ & Hs & _ & Hk & _). rewrite Hs.
    unfold sku_unique, with_creation in *. cbn. rewrite map_app. cbn.
    apply NoDup_app; [exact U | repeat constructor; simpl; tauto |].
    intros s Hin [<- | []].
    apply in_map_iff in Hin. destruct Hin as (p & Hp & Hin).
    assert (existsb (fun p => String.eqb (p_sku p) (sku f)) (products d) = true).
    { apply existsb_exists. exists p. split; auto. now apply String.eqb_eq. }
    congruence.
  - now rewrite Hd.
Qed.

(** X7: a store in which every inventory row and every audit row names a
    product and a warehouse of the store stays so after any request. *)
Theorem references_are_kept (data : json) (d : db) :
  consistent d -> consistent (store (snd (run e data d))).
Proof.
  intros [Ci Ct].
  destruct (run_outcome data d) as [(_ & Hw & _) | (f & P & [C | (Hd & _)])].
  - rewrite Hw. now split.
  - destruct C as (_ & Hs & Hwh & _). rewrite Hs.
    apply existsb_exists in Hwh. destruct Hwh as (w & Hin & Hw).
    apply Z.eqb_eq in Hw. subst w.
    unfold consistent, with_creation. cbn.
    split; apply Forall_app; split.
    + eapply Forall_impl; [| exact Ci]. cbn. intros i [H1 H2]. split; auto.
      rewrite map_app. apply in_or_app. now left.
    + repeat constructor; cbn; auto.
      rewrite map_app. apply in_or_app. right. now left.
    + eapply Forall_impl; [| exact Ct]. cbn. intros t [H1 H2]. split; auto.
      rewrite map_app. apply in_or_app. now left.
    + repeat constructor; cbn; auto.
      rewrite map_app. apply in_or_app. right. now left.
  - rewrite Hd. now split.
Qed.

(** X8: every answer is 201, 400, 409 or 500, and 201 is the only one
    after which the store has changed. *)
Theorem answers_are_four (data : json) (d : db) :
  let r := fst (run e data d) in
  (status r = 201 \/ status r = 400 \/ status r = 409 \/ status r = 500) /\
  (status r <> 201 -> store (snd (run e data d)) = d).
Proof.
  cbv zeta.
  destruct (run_outcome data d) as [(_ & Hw & St) | (f & P & [C | (Hd & St)])].
  - rewrite Hw. split; [tauto | reflexivity].
  - destruct C as (-> & _). split; [now left | intros N; now destruct N].
  - split; [| auto]. destruct St as [[St _] | [[St _] | St]]; auto.
Qed.

(** X9: the answer is 409 only if the store raised an [IntegrityError]
    whose text has "UNIQUE constraint failed" in it. *)
Theorem conflict_needs_integrity_error (data : json) (d : db) :
  status (fst (run e data d)) = 409 ->
  exists s msg pre post,
    fault e s = Some (IntegrityError msg)
    /\ msg = pre ++ "UNIQUE constraint failed" ++ post.
Proof.
  intros H.
  destruct (run_outcome data d) as [(_ & _ & St) | (f & P & [C | (_ & St)])].
  - destruct St as [St | St]; rewrite St in H; discriminate.
  - destruct C as (E & _). rewrite E in H. discriminate.
  - destruct St as [[St _] | [[_ (s & msg & Hf & Hc)] | St]];
      try (rewrite St in H; discriminate).
    apply contains_substring in Hc. destruct Hc as (pre & post & Hc). eauto 6.
Qed.

(** X10: once a request has passed validation it is never answered 400,
    unless opening the connection itself raises a [ValidationError]: the
    two checks made inside the transaction end in 500. *)
Theorem validated_request_is_never_400 (data : json) (f : fields) (d : db) :
  parse_request data = Ok (inr f) ->
  (forall m, fault e Connect <> Some (ValidationError m)) ->
  let r := fst (run e data d) in
  status r = 201 \/ status r = 409 \/ status r = 500.
Proof.
  intros H HC. cbv zeta.
  destruct (run_outcome data d) as [(Hn & _) | (f' & P & [C | (_ & St)])].
  - now destruct (Hn f).
  - destruct C as (-> & _). now left.
  - destruct St as [[_ (m & Hm)] | [[St _] | St]]; auto. now destruct (HC m).
Qed.

(** X11: a body that is null, false, zero, empty text, an empty list or an
    empty object is answered 400 "No JSON data provided"; a body that is
    another number or [true] is answered 500.  Neither reaches the store. *)
Theorem body_must_be_an_object (data : json) (d : db) :
  (truthy data = false ->
     run e data d = (error_response "No JSON data provided" 400, fresh d)) /\
  (truthy data = true -> scalar data = true ->
     run e data d = (error_response "Internal server error" 500, fresh d)).
Proof.
  unfold run, add_product, try_except. unfold bind at 1, lift.
  unfold parse_request. split.
  - intros ->. reflexivity.
  - intros -> Hs. destruct data; try discriminate; reflexivity.
Qed.

Lemma py_int_raises (v : json) (x : exn) :
  py_int v = Raise x -> on_error x = ret (error_response "Internal server error" 500).
Proof.
  destruct v as [| b | n | f | s | l | d]; simpl; try discriminate;
    try (intros H; inversion H; reflexivity).
  - destruct f; try discriminate; intros H; inversion H; reflexivity.
  - destruct (int_of_str s); [discriminate | intros H; inversion H; reflexivity].
Qed.

(** X12: a body with all required fields whose warehouse_id or quantity
    is not a number for [int()] is answered 500, not 400, and does not
    reach the store. *)
Theorem unreadable_number_is_500 (d0 : list (string * json)) (v_wh v_qty : json)
    (x : exn) (d : db) :
  d0 <> [] ->
  find (absent d0) required_fields = None ->
  lookup "warehouse_id" d0 = Some v_wh ->
  lookup "quantity" d0 = Some v_qty ->
  (py_int v_wh = Raise x \/ ((exists n, py_int v_wh = Ok n) /\ py_int v_qty = Raise x)) ->
  run e (JDict d0) d = (error_response "Internal server error" 500, fresh d).
Proof.
  intros Hne Hfind Hwh Hqty Hx.
  unfold run, add_product, try_except. unfold bind at 1, lift.
  unfold parse_request. rewrite first_missing_find, Hfind.
  replace (negb (truthy (JDict d0))) with false by (destruct d0; [congruence | reflexivity]).
  cbn in Hfind. unfold absent in Hfind.
  destruct (lookup "sku" d0) as [v_sku |] eqn:Lsku; [| discriminate].
  destruct (lookup "name" d0) as [v_name |] eqn:Lname;
    [| destruct v_sku; discriminate].
  unfold getitem, rbind. rewrite Lsku, Lname, Hwh, Hqty.
  destruct Hx as [Hx | [[n Hn] Hx]].
  - rewrite Hx. now rewrite (py_int_raises _ _ Hx).
  - rewrite Hn, Hx. now rewrite (py_int_raises _ _ Hx).
Qed.

End Facts.
End AddProductMore.

(** ** Further properties of the two queries *)

Module QueryMore.

Import ApiImplementation OrderFacts QueryNotions.

(** *** The joined rows *)

Lemma left_join_suppliers_In (d : database) (p : product) (s : option supplier) :
  In s (left_join_suppliers d p) <->
  (s = None /\ (forall s0, In s0 (suppliers d) -> p_supplier_id p <> Some (s_id s0)))
  \/ (exists s0, s = Some s0 /\ In s0 (suppliers d) /\ p_supplier_id p = Some (s_id s0)).
Proof.
  unfold left_join_suppliers.
  set (m := fun s1 => match p_supplier_id p with
                      | Some k => String.eqb k (s_id s1)
                      | None => false
                      end).
  assert (Hm : forall s0, m s0 = true <-> p_supplier_id p = Some (s_id s0)).
  { intros s0. unfold m. destruct (p_supplier_id p) as [k |].
    - rewrite String.eqb_eq. split; congruence.
    - split; discriminate. }
  destruct (filter m (suppliers d)) as [| s1 l] eqn:F.
  - split.
    + intros [<- | []]. left. split; auto. intros s0 Hin Heq.
      assert (In s0 (filter m (suppliers d))) by (apply filter_In; split; auto; now apply Hm).
      rewrite F in H. contradiction.
    + intros [[-> _] | (s0 & -> & Hin & Heq)]; [now left |].
      assert (In s0 (filter m (suppliers d))) by (apply filter_In; split; auto; now apply Hm).
      rewrite F in H. contradiction.
  - rewrite <- F. rewrite in_map_iff. split.
    + intros (s0 & <- & Hin). apply filter_In in Hin. right. exists s0.
      repeat split; try tauto. now apply Hm.
    + intros [[-> Hno] | (s0 & -> & Hin & Heq)].
      * exfalso. assert (In s1 (filter m (suppliers d))) by (rewrite F; now left).
        apply filter_In in H. destruct H as [Hin Hs]. apply (Hno s1 Hin). now apply Hm.
      * exists s0. split; auto. apply filter_In. split; auto. now apply Hm.
Qed.

(** The FROM clause pairs every product with each of its inventory rows,
    the warehouse of the row and each linked supplier, or no supplier when
    none is linked. *)
Lemma from_clause_In (d : database) (p : product) (i : inventory_record)
    (w : warehouse) (s : option supplier) :
  In (p, i, w, s) (from_clause d) <->
  In p (products d) /\ In i (inventory d) /\ In w (warehouses d) /\
  p_id p = i_product_id i /\ i_warehouse_id i = w_id w /\
  In s (left_join_suppliers d p).
Proof.
  unfold from_clause. rewrite in_flat_map. split.
  - intros (p' & Hp & H). apply in_flat_map in H. destruct H as (i' & Hi & H).
    destruct (String.eqb_spec (p_id p') (i_product_id i')) as [E1 |]; [| contradiction].
    apply in_flat_map in H. destruct H as (w' & Hw & H).
    destruct (String.eqb_spec (i_warehouse_id i') (w_id w')) as [E2 |]; [| contradiction].
    apply in_map_iff in H. destruct H as (s' & E & Hs). inversion E; subst. tauto.
  - intros (Hp & Hi & Hw & E1 & E2 & Hs). exists p. split; auto.
    apply in_flat_map. exists i. split; auto.
    rewrite E1, String.eqb_refl. apply in_flat_map. exists w. split; auto.
    rewrite E2, String.eqb_refl. apply in_map_iff. eauto.
Qed.

Section Alerts.

Variable float_str : Float.float -> string.
Variable utcnow : nat -> string.
Variable engine : string -> list value -> database -> outcome (list alert_row).

(** X16: the three refusals, in the order the handler makes them: an empty
    company id and a days_lookback outside 1..365 are answered 400, a
    company that is unknown or inactive 404. *)
Theorem refused_requests (d : database)
    (company_id : string) (days_lookback : Z) (include_zero_stock : bool)
    (warehouse_id : option string) :
  let reply := get_low_stock_alerts float_str utcnow engine d company_id
                 days_lookback include_zero_stock warehouse_id in
  (company_id = "" -> reply = Failure "Company ID is required" 400) /\
  (company_id <> "" -> (days_lookback <= 0 \/ 365 < days_lookback) ->
     reply = Failure "days_lookback must be between 1 and 365" 400) /\
  (company_id <> "" -> 1 <= days_lookback <= 365 -> ~ company_active d company_id ->
     reply = Failure "Company not found or inactive" 404).
Proof.
  cbv zeta. unfold get_low_stock_alerts. repeat split.
  - now intros ->.
  - intros Hc Hd. apply String.eqb_neq in Hc. rewrite Hc.
    replace ((days_lookback <=? 0) || (365 <? days_lookback))%bool with true; auto.
    symmetry. apply orb_true_iff. rewrite Z.leb_le, Z.ltb_lt. exact Hd.
  - intros Hc Hd Hn. apply String.eqb_neq in Hc. rewrite Hc.
    replace ((days_lookback <=? 0) || (365 <? days_lookback))%bool with false
      by (symmetry; apply orb_false_iff; split; [apply Z.leb_gt | apply Z.ltb_ge]; lia).
    destruct (existsb _ (companies d)) eqn:E; [| reflexivity].
    exfalso. apply Hn. apply existsb_exists in E. destruct E as (c & Hin & E).
    apply andb_true_iff in E. destruct E as [E1 E2]. apply String.eqb_eq in E1.
    exists c. auto.
Qed.

End Alerts.

(** *** The reorder suggestions *)

Lemma strongly_sorted_along {A B} (P : A -> B -> Prop)
    (R : A -> A -> Prop) (R' : B -> B -> Prop) :
  (forall x y x' y', P x x' -> P y y' -> R x y -> R' x' y') ->
  forall l l', Forall2 P l l' -> StronglySorted R l -> StronglySorted R' l'.
Proof.
  intros HR l l' H. induction H as [| x x' l l' Hx Hl IH]; intros Hs.
  - constructor.
  - inversion Hs as [| ? ? Hs' Hall]; subst. constructor; auto.
    clear IH Hs Hs'. induction Hl as [| y y' l l' Hy Hl IH]; constructor.
    + inversion Hall; subst. eapply HR; eauto.
    + inversion Hall; subst. auto.
Qed.

Lemma reorder_order_preorder (nr : null_rank) (d : database) (today : Z) :
  Preorder3 (reorder_order nr d today).
Proof.
  apply (preorder_ext
           (fun a b : joined =>
              lex (i_current_stock (snd (fst (fst a)))
                   ?= i_current_stock (snd (fst (fst b))))
                  (compare_nullable nr
                     (daily_avg d today (p_id (fst (fst (fst b))))
                        (i_warehouse_id (snd (fst (fst b)))))
                     (daily_avg d today (p_id (fst (fst (fst a))))
                        (i_warehouse_id (snd (fst (fst a)))))))).
  - intros [[[pa ia] wa] sa] [[[pb ib] wb] sb]. reflexivity.
  - apply lex_preorder.
    + apply (key_preorder (fun a : joined => i_current_stock (snd (fst (fst a))))),
        Z_preorder.
    + apply (flip_preorder
               (fun a b : joined =>
                  compare_nullable nr
                    (daily_avg d today (p_id (fst (fst (fst a))))
                       (i_warehouse_id (snd (fst (fst a)))))
                    (daily_avg d today (p_id (fst (fst (fst b))))
                       (i_warehouse_id (snd (fst (fst b))))))).
      apply (key_preorder
               (fun a : joined => daily_avg d today (p_id (fst (fst (fst a))))
                                    (i_warehouse_id (snd (fst (fst a)))))),
        nullable_preorder.
Qed.

Lemma reorder_order_before (nr : null_rank) (d : database) (today : Z)
    (a b : joined) :
  precedes (reorder_order nr d today) a b -> reorder_before nr d today a b.
Proof.
  destruct a as [[[pa ia] wa] sa], b as [[[pb ib] wb] sb].
  unfold precedes, leb_of, reorder_order, reorder_before, lex.
  destruct (Z.compare_spec (i_current_stock ia) (i_current_stock ib)) as [E | L | G];
    [| auto | discriminate].
  intros H. right. split; [exact E |].
  destruct (daily_avg d today (p_id pa) (i_warehouse_id ia)) as [x |],
           (daily_avg d today (p_id pb) (i_warehouse_id ib)) as [y |];
    cbn [compare_nullable] in H; auto.
  - rewrite (cmp_antisym (Preorder3 := float_preorder) x y) in H.
    intros C. rewrite C in H. discriminate.
  - destruct nr; [reflexivity | discriminate].
  - destruct nr; [discriminate | reflexivity].
Qed.

(** X21: the suggestions are in order pair by pair: rising current stock,
    and for equal stock falling daily_avg. *)
Theorem suggestions_are_ordered (nr : null_rank) (d : database) (today : Z)
    (company_id : string) :
  StronglySorted (reorder_before nr d today) (reorder_query nr d today company_id) /\
  StronglySorted (fun a b => sg_current_stock a <= sg_current_stock b)
    (get_reorder_suggestions nr d today company_id).
Proof.
  assert (S : StronglySorted (precedes (reorder_order nr d today))
                (reorder_query nr d today company_id)).
  { apply order_by_sorted, reorder_order_preorder. }
  split.
  - eapply (strongly_sorted_along eq); [| | exact S].
    + intros x y x' y' <- <-. apply reorder_order_before.
    + clear S. induction (reorder_query nr d today company_id); constructor; auto.
  - unfold get_reorder_suggestions.
    eapply (strongly_sorted_along
              (fun j sg => sg = make_suggestion d today j)); [| | exact S].
    + intros [[[pa ia] wa] sa] [[[pb ib] wb] sb] x' y' -> -> H.
      apply reorder_order_before in H. cbn in *. lia.
    + clear S. induction (reorder_query nr d today company_id); simpl; constructor; auto.
Qed.

(** A REAL that is not negative is cast to an INTEGER from 0 to the
    largest. *)
Lemma cast_integer_unsigned (x : Float.float) :
  unsigned x -> 0 <= cast_integer x <= 2 ^ 63 - 1.
Proof.
  intros U. pose proof (AlertFacts.to_Q_unsigned x U) as Hq.
  assert (T : 0 <= Py.int_of_float (Float.to_Q x)).
  { rewrite (AlertFacts.int_of_float_floor _ Hq).
    change 0 with (Qfloor 0). now apply Qfloor_resp_le. }
  unfold cast_integer. destruct x as [s | s | | s m e]; simpl in U; subst; lia.
Qed.

(** X23: the suggested quantity of a row is computed from the average of
    its own product and warehouse: with an average above zero it is 30
    times the average, a float, cast to an INTEGER, which lies between 0
    and the largest INTEGER; with no average, or one that is not above
    zero, it is the default of the product. *)
Theorem suggested_quantities (nr : null_rank) (d : database) (today : Z)
    (company_id : string) :
  Forall (fun sg =>
            exists p i w s,
              In (p, i, w, s) (reorder_query nr d today company_id) /\
              sg = make_suggestion d today (p, i, w, s) /\
              match daily_avg d today (p_id p) (i_warehouse_id i) with
              | Some avg =>
                  if Float.lt Float.zero avg
                  then suggested_order_quantity sg
                       = cast_integer (Float.mul avg (Float.of_int 30))
                       /\ 0 <= suggested_order_quantity sg <= 2 ^ 63 - 1
                  else suggested_order_quantity sg = p_reorder_quantity p
              | None => suggested_order_quantity sg = p_reorder_quantity p
              end)
         (get_reorder_suggestions nr d today company_id).
Proof.
  apply Forall_forall. intros sg Hin. unfold get_reorder_suggestions in Hin.
  apply in_map_iff in Hin. destruct Hin as ([[[p i] w] s] & <- & Hin).
  exists p, i, w, s. split; [exact Hin |]. split; [reflexivity |].
  cbn [make_suggestion suggested_order_quantity]. unfold suggested_quantity.
  destruct (daily_avg d today (p_id p) (i_warehouse_id i)) as [avg |];
    [| reflexivity].
  destruct (Float.lt Float.zero avg) eqn:L; [| reflexivity].
  split; [reflexivity |].
  apply cast_integer_unsigned, AlertFacts.mul_unsigned.
  - now apply AlertFacts.lt_zero_positive.
  - reflexivity.
Qed.

(** X24: every suggestion comes from a product of the company that is
    active, with stock at or below its threshold, and with a linked
    supplier that is active; a product without supplier, or whose supplier
    is inactive, gets no suggestion. *)
Theorem suggestions_have_active_suppliers (nr : null_rank) (d : database)
    (today : Z) (company_id : string) (sg : suggestion) :
  In sg (get_reorder_suggestions nr d today company_id) ->
  exists p i w s0,
    In (p, i, w, Some s0) (from_clause d) /\
    sg = make_suggestion d today (p, i, w, Some s0) /\
    p_company_id p = company_id /\
    i_current_stock i <= p_low_stock_threshold p /\
    p_is_active p = true /\
    s_is_active s0 = true.
Proof.
  unfold get_reorder_suggestions, reorder_query. intros H.
  apply in_map_iff in H. destruct H as ([[[p i] w] s] & <- & H).
  apply ReorderFacts.order_by_in, filter_In in H. destruct H as [Hin Hw].
  apply ReorderFacts.reorder_where_spec in Hw.
  destruct Hw as (H1 & H2 & H3 & s0 & -> & H4).
  exists p, i, w, s0. auto 8.
Qed.

End QueryMore.

(** ** Examples of the further properties *)

Module AddProductExamples.

Import ImprovedEndpoint AddProductNotions AddProductMore Scenario ScenarioMore.

Lemma rejected_request_touches_nothing_witness :
  snd (run quiet JNull one_warehouse) = fresh one_warehouse /\
  (status (fst (run quiet JNull one_warehouse)) = 400
   \/ status (fst (run quiet JNull one_warehouse)) = 500).
Proof.
  apply (rejected_request_touches_nothing quiet JNull one_warehouse).
  intros f. discriminate.
Defined.

Lemma first_missing_field_is_named_witness :
  find (absent nameless) required_fields = Some "sku" /\
  run quiet (JDict nameless) one_warehouse
  = (error_response "Missing required field: sku" 400, fresh one_warehouse).
Proof.
  split; [reflexivity |].
  apply (first_missing_field_is_named quiet nameless "sku" one_warehouse).
  - discriminate.
  - reflexivity.
Defined.

Lemma validated_fields_witness :
  sku request_fields <> "" /\ name request_fields <> "" /\
  0 <= quantity request_fields /\
  Decimal_lt0 (price request_fields) = Some false.
Proof. apply (validated_fields request request_fields). reflexivity. Defined.


Lemma duplicate_sku_never_creates_witness :
  status (fst (run racing request sku_taken)) <> 201 /\
  store (snd (run racing request sku_taken)) = sku_taken.
Proof.
  apply (duplicate_sku_never_creates racing request request_fields sku_taken);
    reflexivity.
Defined.

Lemma sku_uniqueness_is_kept_witness :
  sku_unique stocked_store /\
  sku_unique (store (snd (run quiet second_request stocked_store))).
Proof.
  assert (U : sku_unique stocked_store).
  { unfold sku_unique. cbn. repeat constructor. simpl. tauto. }
  split; [exact U |].
  apply (sku_uniqueness_is_kept quiet second_request stocked_store U).
Defined.

Lemma references_are_kept_witness :
  consistent stocked_store /\
  consistent (store (snd (run quiet second_request stocked_store))).
Proof.
  assert (C : consistent stocked_store).
  { unfold consistent. cbn. repeat constructor; simpl; auto. }
  split; [exact C |].
  apply (references_are_kept quiet second_request stocked_store C).
Defined.

Lemma conflict_needs_integrity_error_witness :
  status (fst (run racing request one_warehouse)) = 409 /\
  exists s msg pre post,
    fault racing s = Some (IntegrityError msg)
    /\ msg = pre ++ "UNIQUE constraint failed" ++ post.
Proof.
  split; [reflexivity |].
  apply (conflict_needs_integrity_error racing request one_warehouse).
  reflexivity.
Defined.

Lemma validated_request_is_never_400_witness :
  let r := fst (run quiet request no_warehouse) in
  status r = 201 \/ status r = 409 \/ status r = 500.
Proof.
  apply (validated_request_is_never_400 quiet request request_fields no_warehouse).
  - reflexivity.
  - intros m. discriminate.
Defined.

Lemma unreadable_number_is_500_witness :
  py_int (JStr "seven") = Raise (ValueError "invalid literal for int() with base 10") /\
  run quiet (JDict worded) one_warehouse
  = (error_response "Internal server error" 500, fresh one_warehouse).
Proof.
  split; [reflexivity |].
  apply (unreadable_number_is_500 quiet worded (JStr "seven") (JInt 5)
           (ValueError "invalid literal for int() with base 10") one_warehouse).
  - discriminate.
  - reflexivity.
  - reflexivity.
  - reflexivity.
  - left. reflexivity.
Defined.

(** A quantity one beyond the largest INTEGER passes the validation and
    is refused when it is bound to the second INSERT: the answer is 500 and
    nothing is written. *)
Example huge_quantity_is_500 :
  fst (run quiet huge_request one_warehouse)
  = error_response "Internal server error" 500
  /\ store (snd (run quiet huge_request one_warehouse)) = one_warehouse
  /\ txn (snd (run quiet huge_request one_warehouse)) = None.
Proof. repeat split; vm_compute; reflexivity. Qed.

End AddProductExamples.

Module QueryExamples.

Import ApiImplementation QueryNotions QueryMore Scenario ScenarioMore.

Lemma suggestions_have_active_suppliers_witness :
  exists sg p i w s0,
    In sg (get_reorder_suggestions NullsLargest two_sales_one_day 100 "acme") /\
    In (p, i, w, Some s0) (from_clause two_sales_one_day) /\
    sg = make_suggestion two_sales_one_day 100 (p, i, w, Some s0) /\
    p_company_id p = "acme" /\
    i_current_stock i <= p_low_stock_threshold p /\
    p_is_active p = true /\
    s_is_active s0 = true.
Proof.
  assert (I : In (make_suggestion two_sales_one_day 100
                    (item "p1" "Bolt" 10 (Some "s1"), stocked "p1" "w1" 2,
                     depot true, Some vendor))
                 (get_reorder_suggestions NullsLargest two_sales_one_day 100 "acme"))
    by (vm_compute; auto).
  destruct (suggestions_have_active_suppliers NullsLargest
              two_sales_one_day 100 "acme" _ I) as (p & i & w & s0 & H).
  eexists. exists p, i, w, s0. split; [exact I | exact H].
Defined.

End QueryExamples.
